(** * A shallow embedding of [BayesBoom/mixtures/beta_binomial_mixture.py]

    The Python class [BetaBinomialMixture] is modelled as a record of its
    attributes, threaded through a state-and-exception monad: a Python
    method that raises leaves behind whatever it had already mutated, so
    the state survives an error.  The C++ engine ([boom]) is reached only
    through the handful of calls the module makes; it is a type class. *)

From Stdlib Require Import ZArith QArith String List Lia.
Import ListNotations.
Open Scope string_scope.

(** ** Python values *)

(** The exceptions the module can raise. *)
Inductive py_error :=
| TypeError
| ValueError
| AttributeError
| IndexError
| KeyError
| EngineError.

Inductive result (A : Type) :=
| Ok (a : A)
| Err (e : py_error).
Arguments Ok {A} a.
Arguments Err {A} e.

Definition rbind {A B} (r : result A) (f : A -> result B) : result B :=
  match r with
  | Ok a => f a
  | Err e => Err e
  end.

Notation "x <-? r ;; k" := (rbind r (fun x => k))
  (at level 61, r at next level, right associativity).

(** A two dimensional numpy array: its shape and its rows. *)
Record ndarray (A : Type) := mk_nd {
  nd_rows : nat;
  nd_cols : nat;
  nd_data : list (list A)
}.
Arguments mk_nd {A} nd_rows nd_cols nd_data.
Arguments nd_rows {A} n.
Arguments nd_cols {A} n.
Arguments nd_data {A} n.

(** [np.empty((r, c))]: negative dimensions raise [ValueError].  The
    contents of [np.empty] are unspecified; they are modelled as [0]. *)
Definition np_empty (r c : Z) : result (ndarray Q) :=
  if (r <? 0)%Z || (c <? 0)%Z then Err ValueError
  else Ok (mk_nd (Z.to_nat r) (Z.to_nat c)
                 (repeat (repeat 0%Q (Z.to_nat c)) (Z.to_nat r))).

Fixpoint replace_nth {A} (n : nat) (x : A) (l : list A) : list A :=
  match l, n with
  | [], _ => []
  | _ :: t, O => x :: t
  | h :: t, S n' => h :: replace_nth n' x t
  end.

(** [m[i, :] = v] for a list [v]: the row is replaced when [v] has one
    entry per column, a one-element [v] is broadcast, any other length
    raises [ValueError]; a row index out of range raises [IndexError]. *)
Definition np_set_row (m : ndarray Q) (i : nat) (v : list Q) : result (ndarray Q) :=
  if Nat.ltb i (nd_rows m) then
    if Nat.eqb (length v) (nd_cols m) then
      Ok (mk_nd (nd_rows m) (nd_cols m) (replace_nth i v (nd_data m)))
    else if Nat.eqb (length v) 1 then
      Ok (mk_nd (nd_rows m) (nd_cols m)
                (replace_nth i (repeat (hd 0%Q v) (nd_cols m)) (nd_data m)))
    else Err ValueError
  else Err IndexError.

(** [m[:, j] = v]: the column is replaced when [v] has one entry per row. *)
Definition np_set_col (m : ndarray Q) (j : nat) (v : list Q) : result (ndarray Q) :=
  if Nat.ltb j (nd_cols m) then
    if Nat.eqb (length v) (nd_rows m) then
      Ok (mk_nd (nd_rows m) (nd_cols m)
                (map (fun '(row, x) => replace_nth j x row) (combine (nd_data m) v)))
    else Err ValueError
  else Err IndexError.

(** [m[:, j]]: the [j]-th column; out of range raises [IndexError]. *)
Definition np_col {A} (dflt : A) (m : ndarray A) (j : nat) : result (list A) :=
  if Nat.ltb j (nd_cols m) then Ok (map (fun row => nth j row dflt) (nd_data m))
  else Err IndexError.

(** Element-wise binary operation of two arrays of the same shape; shapes
    that do not broadcast raise [ValueError]. *)
Definition np_map2 (f : Q -> Q -> Q) (m1 m2 : ndarray Q) : result (ndarray Q) :=
  if Nat.eqb (nd_rows m1) (nd_rows m2) && Nat.eqb (nd_cols m1) (nd_cols m2) then
    Ok (mk_nd (nd_rows m1) (nd_cols m1)
              (map (fun '(r1, r2) => map (fun '(x, y) => f x y) (combine r1 r2))
                   (combine (nd_data m1) (nd_data m2))))
  else Err ValueError.

(** [x.astype(int)] on an entry whose truncation towards zero fits numpy's
    default 64-bit integer: the truncated value.  Outside that range
    numpy's result depends on the array's dtype (an implementation-defined
    value for floats, a wrapped one for unsigned integers, [OverflowError]
    for Python integers); this model does not describe it, and the
    theorems about the cast assume [fits_int64]. *)
Definition q_to_int (q : Q) : Z := Z.quot (Qnum q) (Zpos (Qden q)).

Definition np_astype_int (m : ndarray Q) : ndarray Z :=
  mk_nd (nd_rows m) (nd_cols m) (map (map q_to_int) (nd_data m)).

Definition int64_min : Z := (- 2 ^ 63)%Z.
Definition int64_max : Z := (2 ^ 63 - 1)%Z.

(** Every entry of the table survives [astype(int)] unchanged but for the
    truncation. *)
Definition fits_int64 (m : ndarray Q) : bool :=
  forallb (forallb (fun q => (int64_min <=? q_to_int q)%Z && (q_to_int q <=? int64_max)%Z))
          (nd_data m).

(** A Python subscript key: an [int] or a [str]. *)
Inductive py_key :=
| KInt (i : Z)
| KStr (k : string).

(** [xs[k]] on a Python list: negative integers count from the end, a
    [str] key raises [TypeError] ("list indices must be integers"). *)
Definition list_getitem {A} (xs : list A) (k : py_key) : result A :=
  match k with
  | KStr _ => Err TypeError
  | KInt i =>
      let n := Z.of_nat (length xs) in
      let j := if (i <? 0)%Z then (n + i)%Z else i in
      if (0 <=? j)%Z && (j <? n)%Z then
        match nth_error xs (Z.to_nat j) with
        | Some x => Ok x
        | None => Err IndexError
        end
      else Err IndexError
  end.

(** ** The object's data *)

(** An [R] prior object ([R.BetaPrior(1.0, 1.0)], [R.UniformPrior(...)]):
    its class name and constructor arguments. *)
Record prior := mk_prior {
  prior_class : string;
  prior_params : list Q
}.

(** A component: the Python dict [{"mean_prior": ..., "sample_size_prior": ...}]
    to which [_create_storage] adds the key ["draws"]. *)
Record component := mk_component {
  mean_prior : prior;
  sample_size_prior : prior;
  draws : option (ndarray Q)
}.

Definition component_keys (c : component) : list string :=
  ["mean_prior"; "sample_size_prior"]
    ++ match draws c with Some _ => ["draws"] | None => [] end.

Definition set_draws (c : component) (d : ndarray Q) : component :=
  mk_component (mean_prior c) (sample_size_prior c) (Some d).

(** [d[:, 0]] on a Python dict: the key [(slice(None), 0)] is looked up,
    which raises [TypeError] (a slice is unhashable). *)
Definition dict_getitem_slice (c : component) (j : nat) : result (list Q) :=
  Err TypeError.

(** The attribute [self._mixing_weights]: it is not set by [__init__]. *)
Inductive mw_attr :=
| MWMissing
| MWNone
| MWArray (m : ndarray Q).

(** ** The engine *)

(** Modelled from the spec: the C++ classes of [boom] that the module calls
    ([MultinomialModel], [DirichletModel], [BetaBinomialModel], the
    posterior samplers, [BetaBinomialMixtureModel], [GlobalRng]) are not
    in this source tree; the spec's collaborator contract lists the calls
    the module makes, which are the methods of this class. *)
Class BoomEngine (E : Type) := {
  (** [_build_boom_model]: component priors and Dirichlet prior counts *)
  eng_build : list (prior * prior) -> list Q -> E;
  (** [boom_model.add_data(trials, successes, counts)] *)
  eng_add_data : E -> list Z -> list Z -> list Z -> E;
  (** [boom_model.sample_posterior()], drawing from the global generator *)
  eng_sample_posterior : E -> Z -> E * Z;
  (** [(mixture_component(c).a, mixture_component(c).b)]; [None] when
      the engine has no component [c] *)
  eng_component_ab : E -> nat -> option (Q * Q);
  (** [mixing_distribution.probs.to_numpy()] *)
  eng_probs : E -> list Q;
  (** the number of mixture components of the engine model *)
  eng_ncomp : E -> nat
}.

(** Modelled from the spec: the engine is reliable.  A model built from
    [k] components and [n] prior counts has [k] components and a
    probability vector of length [n], which sampling keeps. *)
Class BoomEngineLaws (E : Type) `{BoomEngine E} := {
  eng_build_ncomp : forall cs pc, eng_ncomp (eng_build cs pc) = length cs;
  eng_build_probs : forall cs pc, length (eng_probs (eng_build cs pc)) = length pc;
  eng_sample_ncomp : forall e r, eng_ncomp (fst (eng_sample_posterior e r)) = eng_ncomp e;
  eng_sample_probs : forall e r,
    length (eng_probs (fst (eng_sample_posterior e r))) = length (eng_probs e);
  eng_component_ab_some : forall e c, (c < eng_ncomp e)%nat -> eng_component_ab e c <> None
}.

(** ** The object and the state-and-exception monad *)

Section Mixture.
Context {E : Type} `{BoomEngine E}.

(** [self] together with the two process-wide effects the class touches:
    the engine's global random generator and the warnings it emits. *)
Record bbm := mk_bbm {
  components : list component;          (** [self._components] *)
  prior_counts : list Q;                (** [self._mixing_distribution_prior_counts] *)
  mixing_weights_attr : mw_attr;        (** [self._mixing_weights] *)
  boom_model : option E;                (** [self._boom_model] *)
  global_rng : Z;                       (** [boom.GlobalRng.rng] *)
  warnings : list string                (** messages passed to [warnings.warn] *)
}.

Definition set_components (s : bbm) (cs : list component) : bbm :=
  mk_bbm cs (prior_counts s) (mixing_weights_attr s) (boom_model s)
         (global_rng s) (warnings s).
Definition set_mw (s : bbm) (w : mw_attr) : bbm :=
  mk_bbm (components s) (prior_counts s) w (boom_model s)
         (global_rng s) (warnings s).
Definition set_boom (s : bbm) (e : option E) : bbm :=
  mk_bbm (components s) (prior_counts s) (mixing_weights_attr s) e
         (global_rng s) (warnings s).
Definition set_rng (s : bbm) (r : Z) : bbm :=
  mk_bbm (components s) (prior_counts s) (mixing_weights_attr s) (boom_model s)
         r (warnings s).
Definition warn (s : bbm) (msg : string) : bbm :=
  mk_bbm (components s) (prior_counts s) (mixing_weights_attr s) (boom_model s)
         (global_rng s) (warnings s ++ [msg]).

Definition M (A : Type) := bbm -> bbm * result A.

Definition ret {A} (a : A) : M A := fun s => (s, Ok a).

Definition bind {A B} (m : M A) (f : A -> M B) : M B := fun s =>
  match m s with
  | (s', Ok a) => f a s'
  | (s', Err e) => (s', Err e)
  end.

Notation "x <- m ;; k" := (bind m (fun x => k))
  (at level 61, m at next level, right associativity).
Notation "m ;; k" := (bind m (fun _ => k))
  (at level 61, right associativity).

(** [for i in xs: body(i)] *)
Fixpoint for_each (xs : list nat) (body : nat -> M unit) : M unit :=
  match xs with
  | [] => ret tt
  | i :: rest => body i ;; for_each rest body
  end.

(** [BetaBinomialMixture()]: [__init__] sets three attributes; the global
    generator is in whatever state [rng0] the process left it. *)
Definition init (rng0 : Z) : bbm := mk_bbm [] [] MWMissing None rng0 [].

(** [number_of_mixture_components] *)
Definition number_of_mixture_components (s : bbm) : nat :=
  length (prior_counts s).

(** [add_component(mean_prior, sample_size_prior, prior_count)] *)
Definition add_component (mp ssp : prior) (prior_count : Q) : M unit := fun s =>
  (mk_bbm (components s ++ [mk_component mp ssp None])
          (prior_counts s ++ [prior_count]) MWNone (boom_model s)
          (global_rng s) (warnings s), Ok tt).

(** [_build_boom_model()] *)
Definition build_boom_model (s : bbm) : E :=
  eng_build (map (fun c => (mean_prior c, sample_size_prior c)) (components s))
            (prior_counts s).

(** The input of [add_data]: a numpy matrix or a [pd.DataFrame], whose
    [.values] is used. *)
Inductive table :=
| NdArray (m : ndarray Q)
| DataFrame (m : ndarray Q).

Definition table_values (t : table) : ndarray Q :=
  match t with NdArray m | DataFrame m => m end.

(** [add_data(data)] *)
Definition add_data (data : table) : M unit := fun s =>
  let s1 := match boom_model s with
            | None => set_boom s (Some (build_boom_model s))
            | Some _ => s
            end in
  let d := np_astype_int (table_values data) in
  match boom_model s1 with
  | None => (s1, Err AttributeError)
  | Some e =>
      match np_col 0%Z d 0, np_col 0%Z d 1, np_col 0%Z d 2 with
      | Ok trials, Ok successes, Ok counts =>
          (set_boom s1 (Some (eng_add_data e trials successes counts)), Ok tt)
      | Err er, _, _ | Ok _, Err er, _ | Ok _, Ok _, Err er => (s1, Err er)
      end
  end.

Definition no_data_warning : string :=
  "Running MCMC on a model with no data assigned.".

(** The guard at the top of [mcmc]. *)
Definition ensure_model : M unit := fun s =>
  match boom_model s with
  | None => (warn (set_boom s (Some (build_boom_model s))) no_data_warning, Ok tt)
  | Some _ => (s, Ok tt)
  end.

(** [for component in self._components: component["draws"] = np.empty((niter, 2))]
    mutates the dicts in place; the components before a failure keep
    their new tables. *)
Fixpoint create_draws (niter : Z) (cs : list component)
  : list component * option py_error :=
  match cs with
  | [] => ([], None)
  | c :: rest =>
      match np_empty niter 2 with
      | Err er => (cs, Some er)
      | Ok d => let '(rest', r) := create_draws niter rest in (set_draws c d :: rest', r)
      end
  end.

(** [_create_storage(niter)] *)
Definition create_storage (niter : Z) : M unit := fun s =>
  let '(cs', r) := create_draws niter (components s) in
  let s1 := set_components s cs' in
  match r with
  | Some er => (s1, Err er)
  | None =>
      match np_empty niter (Z.of_nat (number_of_mixture_components s1)) with
      | Err er => (s1, Err er)
      | Ok m => (set_mw s1 (MWArray m), Ok tt)
      end
  end.

(** [if seed is not None: boom.GlobalRng.rng.seed(int(seed))] *)
Definition seed_rng (seed : option Z) : M unit := fun s =>
  match seed with
  | None => (s, Ok tt)
  | Some sd => (set_rng s sd, Ok tt)
  end.

(** [self._boom_model.sample_posterior()] *)
Definition sample_posterior : M unit := fun s =>
  match boom_model s with
  | None => (s, Err AttributeError)
  | Some e =>
      let '(e', r) := eng_sample_posterior e (global_rng s) in
      (set_rng (set_boom s (Some e')) r, Ok tt)
  end.

(** The loop over [enumerate(self._components)] in [_record_draw(i)]:
    the right-hand side [[a, b]] is evaluated before [component["draws"]]. *)
Fixpoint record_components (e : E) (i c : nat) (cs : list component)
  : list component * option py_error :=
  match cs with
  | [] => ([], None)
  | comp :: rest =>
      match eng_component_ab e c with
      | None => (cs, Some EngineError)
      | Some (a, b) =>
          match draws comp with
          | None => (cs, Some KeyError)
          | Some d =>
              match np_set_row d i [a; b] with
              | Err er => (cs, Some er)
              | Ok d' =>
                  let '(rest', r) := record_components e i (S c) rest in
                  (set_draws comp d' :: rest', r)
              end
          end
      end
  end.

(** [_record_draw(i)] *)
Definition record_draw (i : nat) : M unit := fun s =>
  match boom_model s with
  | None => (s, Err AttributeError)
  | Some e =>
      let '(cs', r) := record_components e i 0 (components s) in
      let s1 := set_components s cs' in
      match r with
      | Some er => (s1, Err er)
      | None =>
          let p := eng_probs e in
          match mixing_weights_attr s1 with
          | MWMissing => (s1, Err AttributeError)
          | MWNone => (s1, Err TypeError)
          | MWArray m =>
              match np_set_row m i p with
              | Err er => (s1, Err er)
              | Ok m' => (set_mw s1 (MWArray m'), Ok tt)
              end
          end
      end
  end.

(** [mcmc] after its guard; [R.report_progress(i, ping)] only prints. *)
Definition mcmc_body (niter : Z) (seed : option Z) : M unit :=
  create_storage niter ;;
  seed_rng seed ;;
  for_each (seq 0 (Z.to_nat niter)) (fun i => sample_posterior ;; record_draw i).

(** [mcmc(niter, ping, seed)] *)
Definition mcmc (niter : Z) (seed : option Z) : M unit :=
  ensure_model ;; mcmc_body niter seed.

(** ** The read-only properties *)

(** [niter] *)
Definition niter_prop (s : bbm) : result Z :=
  match mixing_weights_attr s with
  | MWMissing => Err AttributeError
  | MWNone => Ok 0%Z
  | MWArray m => Ok (Z.of_nat (nd_rows m))
  end.

(** The loop of [a] and [b]:
    [for i in range(k): ans[:, i] = self._components["draws"][:, col]]. *)
Fixpoint fill_columns (cs : list component) (col : nat) (idx : list nat)
  (ans : ndarray Q) : result (ndarray Q) :=
  match idx with
  | [] => Ok ans
  | i :: rest =>
      comp <-? list_getitem cs (KStr "draws") ;;
      v <-? dict_getitem_slice comp col ;;
      ans' <-? np_set_col ans i v ;;
      fill_columns cs col rest ans'
  end.

Definition draws_matrix (col : nat) (s : bbm) : result (ndarray Q) :=
  n <-? niter_prop s ;;
  ans <-? np_empty n (Z.of_nat (number_of_mixture_components s)) ;;
  fill_columns (components s) col (seq 0 (number_of_mixture_components s)) ans.

(** [a] *)
Definition a_prop (s : bbm) : result (ndarray Q) := draws_matrix 0 s.

(** [b] *)
Definition b_prop (s : bbm) : result (ndarray Q) := draws_matrix 1 s.

(** [means]: [a / (a + b)]; float division is modelled by [Qdiv]. *)
Definition means_prop (s : bbm) : result (ndarray Q) :=
  a <-? a_prop s ;;
  b <-? b_prop s ;;
  ab <-? np_map2 Qplus a b ;;
  np_map2 Qdiv a ab.

(** [sample_sizes]: [self.a + self.b] *)
Definition sample_sizes_prop (s : bbm) : result (ndarray Q) :=
  a <-? a_prop s ;;
  b <-? b_prop s ;;
  np_map2 Qplus a b.

(** [mixing_weights]: [None] is returned as [Ok None]. *)
Definition mixing_weights_prop (s : bbm) : result (option (ndarray Q)) :=
  match mixing_weights_attr s with
  | MWMissing => Err AttributeError
  | MWNone => Ok None
  | MWArray m => Ok (Some m)
  end.

(** ** Sequences of method calls

    A caller may catch an exception and go on using the object, so a
    sequence keeps the state each call leaves, raised or not. *)
Inductive op :=
| OpAddComponent (mp ssp : prior) (prior_count : Q)
| OpAddData (data : table)
| OpMcmc (niter : Z) (seed : option Z).

Definition run_op (o : op) : M unit :=
  match o with
  | OpAddComponent mp ssp pc => add_component mp ssp pc
  | OpAddData t => add_data t
  | OpMcmc n sd => mcmc n sd
  end.

Definition run_ops (ops : list op) (s : bbm) : bbm :=
  fold_left (fun st o => fst (run_op o st)) ops s.

End Mixture.

Arguments bbm E : clear implicits.
Arguments M E A : clear implicits.

Notation "x <- m ;; k" := (bind m (fun x => k))
  (at level 61, m at next level, right associativity).
Notation "m ;; k" := (bind m (fun _ => k))
  (at level 61, right associativity).

(** ** A concrete engine *)

(** Modelled from the spec: a stand-in for [boom] that follows the
    collaborator contract: each component starts at the placeholder shape
    parameters [(1, 1)], the mixing distribution starts uniform, data are
    recorded, and a posterior draw leaves the parameters where they are
    and advances the global generator. *)
Record toy_engine := mk_toy {
  toy_ab : list (Q * Q);
  toy_probs : list Q;
  toy_data : list (Z * Z * Z)
}.

#[export] Instance toy_boom : BoomEngine toy_engine := {
  eng_build cs pc :=
    mk_toy (repeat (1%Q, 1%Q) (length cs))
           (repeat (1 / inject_Z (Z.of_nat (length pc)))%Q (length pc)) [];
  eng_add_data e t y n :=
    mk_toy (toy_ab e) (toy_probs e) (toy_data e ++ combine (combine t y) n);
  eng_sample_posterior e r := (e, (r + 1)%Z);
  eng_component_ab e c := nth_error (toy_ab e) c;
  eng_probs e := toy_probs e;
  eng_ncomp e := length (toy_ab e)
}.

(** ** Definitions used in the proofs *)

Definition dshape (c : component) : option (nat * nat) :=
  option_map (fun d => (nd_rows d, nd_cols d)) (draws c).

Definition dcols (c : component) : option nat := option_map (@nd_cols Q) (draws c).

Definition mw_cols (w : mw_attr) : option (option nat) :=
  match w with
  | MWMissing => None
  | MWNone => Some None
  | MWArray m => Some (Some (nd_cols m))
  end.

(** The priors of the components, in order: what identifies them. *)
Definition priors_of {E} (s : bbm E) : list (prior * prior) :=
  map (fun c => (mean_prior c, sample_size_prior c)) (components s).

(** A component may have its table replaced; its priors stay. *)
Definition comp_same (x y : component) : Prop :=
  mean_prior y = mean_prior x /\ sample_size_prior y = sample_size_prior x /\
  dshape y = dshape x.

Definition comp_step (x y : component) : Prop :=
  mean_prior y = mean_prior x /\ sample_size_prior y = sample_size_prior x /\
  (dcols y = dcols x \/ dcols y = Some 2%nat).

(** [R.BetaPrior(1.0, 1.0)] and [R.UniformPrior(0.1, 1000.0)], the priors
    used in the class docstring. *)
Definition beta_prior_1_1 : prior := mk_prior "BetaPrior" [1%Q; 1%Q].
Definition uniform_prior_01_1000 : prior := mk_prior "UniformPrior" [1#10; 1000%Q].

(** A sequence of calls with no call to [mcmc]. *)
Definition no_mcmc (ops : list op) : bool :=
  forallb (fun o => match o with OpMcmc _ _ => false | _ => true end) ops.

(** Column [j] of [data.astype(int)], as [data[:, j]] reads it. *)
Definition int_column (m : ndarray Q) (j : nat) : list Z :=
  map (fun row => nth j row 0%Z) (nd_data (np_astype_int m)).

(** A sequence of calls made only of [add_data]. *)
Definition only_add_data (ops : list op) : bool :=
  forallb (fun o => match o with OpAddData _ => true | _ => false end) ops.

(** An array whose list of rows has the length its shape says. *)
Definition nd_wf {A} (m : ndarray A) : Prop := length (nd_data m) = nd_rows m.

Section ProofDefs.
Context {E : Type} `{BoomEngine E}.
Implicit Types s : bbm E.

(** *** Reasoning about [M]: a relation every step of a computation keeps *)

Definition steps (R : bbm E -> bbm E -> Prop) {A} (m : M E A) : Prop :=
  forall s, R s (fst (m s)).

(** *** What [mcmc_body] may change *)

Definition frame s s' : Prop :=
  Forall2 comp_step (components s) (components s') /\
  prior_counts s' = prior_counts s /\
  warnings s' = warnings s /\
  (mw_cols (mixing_weights_attr s') = mw_cols (mixing_weights_attr s) \/
   mw_cols (mixing_weights_attr s') = Some (Some (length (prior_counts s)))).

(** *** The bookkeeping invariant of reachable objects *)

Definition shape_inv s : Prop :=
  length (prior_counts s) = length (components s) /\
  (prior_counts s <> [] -> mixing_weights_attr s <> MWMissing) /\
  (forall m, mixing_weights_attr s = MWArray m -> nd_cols m = length (prior_counts s)) /\
  Forall (fun c => dcols c = None \/ dcols c = Some 2%nat) (components s).

Definition rows_inv (n : nat) s : Prop :=
  (exists m, mixing_weights_attr s = MWArray m /\ nd_rows m = n) /\
  Forall (fun c => exists d, draws c = Some d /\ nd_rows d = n) (components s).

Definition keeps (P : bbm E -> Prop) s s' : Prop := P s -> P s'.

Definition table_ok (n : nat) (c : component) : Prop :=
  exists d, draws c = Some d /\ nd_rows d = n /\ nd_cols d = 2%nat.

Definition running (w : list string) (n : nat) s : Prop :=
  warnings s = w /\
  (exists e, boom_model s = Some e /\ eng_ncomp e = length (components s) /\
             length (eng_probs e) = length (prior_counts s)) /\
  Forall (table_ok n) (components s) /\
  (exists m, mixing_weights_attr s = MWArray m /\ nd_rows m = n /\
             nd_cols m = length (prior_counts s)).

(** Every stored table is well formed. *)
Definition storage_wf s : Prop :=
  Forall (fun c => forall d, draws c = Some d -> nd_wf d) (components s) /\
  (forall m, mixing_weights_attr s = MWArray m -> nd_wf m).

End ProofDefs.

#[export] Instance toy_boom_laws : BoomEngineLaws toy_engine.
Proof.
  split; intros; simpl.
  - apply repeat_length.
  - apply repeat_length.
  - reflexivity.
  - reflexivity.
  - intros Hn. apply nth_error_None in Hn. simpl in *. lia.
Qed.

(** ** Shapes of the stored tables *)

Lemma np_empty_ok r c m :
  np_empty r c = Ok m -> nd_rows m = Z.to_nat r /\ nd_cols m = Z.to_nat c.
Proof.
  unfold np_empty. destruct ((r <? 0)%Z || (c <? 0)%Z); intros Hm; inversion Hm; auto.
Qed.

Lemma np_empty_nonneg r c :
  (0 <= r)%Z -> (0 <= c)%Z -> exists m, np_empty r c = Ok m.
Proof.
  intros Hr Hc. unfold np_empty.
  replace ((r <? 0)%Z || (c <? 0)%Z) with false; [eauto|].
  symmetry. apply Bool.orb_false_iff; split; apply Z.ltb_ge; lia.
Qed.

Lemma np_set_row_shape m i v m' :
  np_set_row m i v = Ok m' -> nd_rows m' = nd_rows m /\ nd_cols m' = nd_cols m.
Proof.
  unfold np_set_row.
  destruct (Nat.ltb i (nd_rows m)); [|discriminate].
  destruct (Nat.eqb (length v) (nd_cols m)); [intros Hm; inversion Hm; auto|].
  destruct (Nat.eqb (length v) 1); intros Hm; inversion Hm; auto.
Qed.

Lemma np_set_row_fits m i v :
  (i < nd_rows m)%nat -> length v = nd_cols m -> exists m', np_set_row m i v = Ok m'.
Proof.
  intros Hi Hv. unfold np_set_row.
  apply Nat.ltb_lt in Hi. rewrite Hi. apply Nat.eqb_eq in Hv. rewrite Hv. eauto.
Qed.

Lemma Forall2_refl_on {A} (R : A -> A -> Prop) (l : list A) :
  (forall x, R x x) -> Forall2 R l l.
Proof. intros Hr; induction l; constructor; auto. Qed.

Lemma Forall2_impl' {A} (R R' : A -> A -> Prop) (l l' : list A) :
  (forall x y, R x y -> R' x y) -> Forall2 R l l' -> Forall2 R' l l'.
Proof. intros Hi HF; induction HF; constructor; auto. Qed.

Lemma Forall2_trans' {A} (R : A -> A -> Prop) (l1 l2 l3 : list A) :
  (forall x y z, R x y -> R y z -> R x z) ->
  Forall2 R l1 l2 -> Forall2 R l2 l3 -> Forall2 R l1 l3.
Proof.
  intros Ht H12; revert l3; induction H12; intros l3 H23; inversion H23; subst;
    constructor; eauto.
Qed.

Lemma comp_same_step x y : comp_same x y -> comp_step x y.
Proof.
  unfold comp_same, comp_step, dshape, dcols.
  intros (H1 & H2 & H3); repeat split; auto. left.
  destruct (draws x), (draws y); simpl in *; try discriminate; auto.
  inversion H3; reflexivity.
Qed.

Lemma comp_step_refl x : comp_step x x.
Proof. unfold comp_step; auto. Qed.

Lemma comp_step_trans x y z : comp_step x y -> comp_step y z -> comp_step x z.
Proof.
  unfold comp_step. intros (A1 & A2 & A3) (B1 & B2 & B3).
  repeat split; try congruence.
  destruct A3, B3; [left | right | right | right]; congruence.
Qed.

Lemma create_draws_step n cs cs' r :
  create_draws n cs = (cs', r) -> Forall2 comp_step cs cs'.
Proof.
  revert cs' r; induction cs as [|c cs IH]; simpl; intros cs' r Hc.
  - inversion Hc; constructor.
  - destruct (np_empty n 2) as [d|er] eqn:He.
    + destruct (create_draws n cs) as [rest' r'] eqn:Hr. inversion Hc; subst.
      constructor; [|eapply IH; eauto].
      apply np_empty_ok in He. unfold comp_step, dcols; simpl.
      repeat split; auto. right. rewrite (proj2 He). reflexivity.
    + inversion Hc; subst. apply Forall2_refl_on, comp_step_refl.
Qed.

(** With a non-negative [niter], every component gets the same fresh table. *)
Lemma create_draws_ok n cs d :
  np_empty n 2 = Ok d -> create_draws n cs = (map (fun c => set_draws c d) cs, None).
Proof.
  intros He; induction cs as [|c cs IH]; simpl; [reflexivity|].
  rewrite He, IH. reflexivity.
Qed.

Open Scope list_scope.

Section Proofs.
Context {E : Type} `{BoomEngine E}.
Implicit Types s : bbm E.

Lemma record_components_same e i c cs cs' r :
  record_components e i c cs = (cs', r) -> Forall2 comp_same cs cs'.
Proof.
  revert c cs' r; induction cs as [|x cs IH]; simpl; intros c cs' r Hc.
  - inversion Hc; constructor.
  - assert (Hrefl : Forall2 comp_same (x :: cs) (x :: cs))
      by (apply Forall2_refl_on; intros; unfold comp_same; auto).
    destruct (eng_component_ab e c) as [[a b]|]; [|inversion Hc; subst; exact Hrefl].
    destruct (draws x) as [d|] eqn:Hd; [|inversion Hc; subst; exact Hrefl].
    destruct (np_set_row d i [a; b]) as [d'|er] eqn:Hs; [|inversion Hc; subst; exact Hrefl].
    destruct (record_components e i (S c) cs) as [rest' r'] eqn:Hr.
    inversion Hc; subst. constructor; [|eapply IH; eauto].
    apply np_set_row_shape in Hs. unfold comp_same, dshape; simpl.
    rewrite Hd; simpl. destruct Hs as [-> ->]. auto.
Qed.


Lemma steps_bind (R : bbm E -> bbm E -> Prop) {A B} (m : M E A) (f : A -> M E B) :
  (forall x y z, R x y -> R y z -> R x z) ->
  steps R m -> (forall a, steps R (f a)) -> steps R (bind m f).
Proof.
  intros Ht Hm Hf s. unfold bind. specialize (Hm s).
  destruct (m s) as [s1 [a|er]]; simpl in *; [|exact Hm].
  eapply Ht; [exact Hm | apply Hf].
Qed.

Lemma steps_for_each (R : bbm E -> bbm E -> Prop) xs body :
  (forall x, R x x) -> (forall x y z, R x y -> R y z -> R x z) ->
  (forall i, steps R (body i)) -> steps R (for_each xs body).
Proof.
  intros Hr Ht Hb; induction xs as [|i xs IH]; simpl.
  - intros s; apply Hr.
  - apply steps_bind; auto.
Qed.

Lemma steps_mcmc_body (R : bbm E -> bbm E -> Prop) n sd :
  (forall x, R x x) -> (forall x y z, R x y -> R y z -> R x z) ->
  steps R (create_storage n) -> steps R (seed_rng sd) -> steps R sample_posterior ->
  (forall i, steps R (record_draw i)) -> steps R (mcmc_body n sd).
Proof.
  intros Hr Ht Hc Hs Hp Hd. unfold mcmc_body.
  apply steps_bind; auto; intros _.
  apply steps_bind; auto; intros _.
  apply steps_for_each; auto; intros i.
  apply steps_bind; auto.
Qed.

Lemma frame_refl s : frame s s.
Proof.
  unfold frame; repeat split; auto. apply Forall2_refl_on, comp_step_refl.
Qed.

Lemma frame_trans s1 s2 s3 : frame s1 s2 -> frame s2 s3 -> frame s1 s3.
Proof.
  unfold frame. intros (A1 & A2 & A3 & A4) (B1 & B2 & B3 & B4).
  repeat split; try congruence.
  - eapply Forall2_trans'; eauto using comp_step_trans.
  - rewrite A2 in B4. destruct A4, B4; [left | right | right | right]; congruence.
Qed.

Lemma frame_same_fields s s' :
  components s' = components s -> prior_counts s' = prior_counts s ->
  warnings s' = warnings s -> mixing_weights_attr s' = mixing_weights_attr s ->
  frame s s'.
Proof.
  unfold frame. intros -> -> -> ->. repeat split; auto.
  apply Forall2_refl_on, comp_step_refl.
Qed.

Lemma frame_create_storage n : steps (@frame E) (create_storage n).
Proof.
  intros s. unfold create_storage.
  destruct (create_draws n (components s)) as [cs' r] eqn:Hc.
  apply create_draws_step in Hc.
  assert (Hs1 : frame s (set_components s cs')) by (unfold frame; simpl; auto).
  destruct r as [er|]; [exact Hs1|].
  destruct (np_empty n _) as [m|er] eqn:He; [|exact Hs1].
  apply np_empty_ok in He. unfold frame; simpl. repeat split; auto.
  right. rewrite (proj2 He). unfold number_of_mixture_components; simpl.
  rewrite Nat2Z.id. reflexivity.
Qed.

Lemma frame_seed_rng sd : steps (@frame E) (seed_rng sd).
Proof.
  intros s; destruct sd; simpl; apply frame_same_fields; reflexivity.
Qed.

Lemma frame_sample_posterior : steps (@frame E) sample_posterior.
Proof.
  intros s; unfold sample_posterior.
  destruct (boom_model s) as [e|]; [|apply frame_refl].
  destruct (eng_sample_posterior e (global_rng s)) as [e' r].
  apply frame_same_fields; reflexivity.
Qed.

Lemma frame_record_draw i : steps (@frame E) (record_draw i).
Proof.
  intros s; unfold record_draw.
  destruct (boom_model s) as [e|]; [|apply frame_refl].
  destruct (record_components e i 0 (components s)) as [cs' r] eqn:Hc.
  apply record_components_same in Hc.
  apply (Forall2_impl' _ _ _ _ comp_same_step) in Hc.
  assert (Hs1 : frame s (set_components s cs')) by (unfold frame; simpl; auto).
  destruct r as [er|]; [exact Hs1|]. simpl.
  destruct (mixing_weights_attr s) as [| |m] eqn:Hw; try exact Hs1.
  destruct (np_set_row m i (eng_probs e)) as [m'|er] eqn:Hs; [|exact Hs1].
  apply np_set_row_shape in Hs.
  unfold frame; simpl. repeat split; auto. left. rewrite Hw; simpl.
  rewrite (proj2 Hs). reflexivity.
Qed.

Lemma frame_mcmc_body n sd : steps (@frame E) (mcmc_body n sd).
Proof.
  apply steps_mcmc_body; eauto using frame_refl, frame_trans, frame_create_storage,
    frame_seed_rng, frame_sample_posterior, frame_record_draw.
Qed.


Lemma Forall_comp_step cs cs' :
  Forall2 comp_step cs cs' ->
  Forall (fun c => dcols c = None \/ dcols c = Some 2%nat) cs ->
  Forall (fun c => dcols c = None \/ dcols c = Some 2%nat) cs'.
Proof.
  intros HF; induction HF as [|x y xs ys Hxy _ IH]; intros Hall; constructor.
  - inversion Hall; subst. destruct Hxy as (_ & _ & [-> | ->]); auto.
  - inversion Hall; auto.
Qed.

Lemma shape_inv_frame s s' : shape_inv s -> frame s s' -> shape_inv s'.
Proof.
  intros (I1 & I2 & I3 & I4) (F1 & F2 & F3 & F4).
  unfold shape_inv. rewrite F2. repeat split.
  - rewrite I1. eapply Forall2_length; eauto.
  - intros Hne Hw. rewrite Hw in F4; simpl in F4.
    destruct F4 as [F4|F4]; [|discriminate].
    destruct (mixing_weights_attr s); simpl in F4; try discriminate.
    apply (I2 Hne); reflexivity.
  - intros m Hw. rewrite Hw in F4; simpl in F4.
    destruct F4 as [F4|F4]; [|congruence].
    destruct (mixing_weights_attr s) as [| |m0] eqn:Hw0; simpl in F4; try discriminate.
    inversion F4 as [Hc]. rewrite Hc. apply I3. reflexivity.
  - eapply Forall_comp_step; eauto.
Qed.

Lemma mcmc_unfold n sd s :
  mcmc n sd s = mcmc_body n sd (fst (ensure_model s)).
Proof.
  unfold mcmc, bind, ensure_model. destruct (boom_model s); reflexivity.
Qed.

Lemma ensure_model_fields s :
  components (fst (ensure_model s)) = components s /\
  prior_counts (fst (ensure_model s)) = prior_counts s /\
  mixing_weights_attr (fst (ensure_model s)) = mixing_weights_attr s.
Proof.
  unfold ensure_model. destruct (boom_model s); simpl; auto.
Qed.

Lemma add_data_fields t s :
  components (fst (add_data t s)) = components s /\
  prior_counts (fst (add_data t s)) = prior_counts s /\
  mixing_weights_attr (fst (add_data t s)) = mixing_weights_attr s /\
  warnings (fst (add_data t s)) = warnings s.
Proof.
  unfold add_data.
  repeat match goal with
         | |- context [match ?x with _ => _ end] => destruct x
         end; simpl; auto.
Qed.

Lemma shape_inv_run_op o s : shape_inv s -> shape_inv (fst (run_op o s)).
Proof.
  intros Hs. destruct o as [mp ssp pc | t | n sd]; simpl.
  - destruct Hs as (I1 & I2 & I3 & I4). unfold shape_inv; simpl.
    rewrite !length_app, I1. repeat split; try (intros; discriminate).
    all: apply Forall_app; split; auto. all: constructor; auto.
  - destruct (add_data_fields t s) as (A1 & A2 & A3 & _).
    destruct Hs as (I1 & I2 & I3 & I4). unfold shape_inv.
    rewrite A1, A2, A3. auto.
  - rewrite mcmc_unfold. apply (shape_inv_frame (fst (ensure_model s))).
    + destruct (ensure_model_fields s) as (A1 & A2 & A3).
      destruct Hs as (I1 & I2 & I3 & I4). unfold shape_inv.
      rewrite A1, A2, A3. auto.
    + apply frame_mcmc_body.
Qed.

Lemma shape_inv_init rng0 : shape_inv (init (E:=E) rng0).
Proof.
  unfold shape_inv; simpl. repeat split.
  - intros Hc; exfalso; apply Hc; reflexivity.
  - intros m Hm; discriminate.
  - constructor.
Qed.

Lemma shape_inv_run_ops ops s : shape_inv s -> shape_inv (run_ops ops s).
Proof.
  unfold run_ops. revert s; induction ops as [|o ops IH]; simpl; intros s Hs; auto.
  apply IH, shape_inv_run_op, Hs.
Qed.

Lemma shape_inv_reachable ops rng0 : shape_inv (run_ops ops (init (E:=E) rng0)).
Proof. apply shape_inv_run_ops, shape_inv_init. Qed.

(** *** Components are only ever appended *)

Lemma priors_frame s s' : frame s s' -> priors_of s' = priors_of s.
Proof.
  intros (F1 & _). unfold priors_of.
  induction F1 as [|x y xs ys (H1 & H2 & _) _ IH]; simpl; auto.
  rewrite H1, H2, IH. reflexivity.
Qed.

Lemma priors_run_op o s :
  exists l, priors_of (fst (run_op o s)) = priors_of s ++ l.
Proof.
  destruct o as [mp ssp pc | t | n sd]; simpl.
  - exists [(mp, ssp)]. unfold priors_of; simpl. rewrite map_app. reflexivity.
  - exists []. rewrite app_nil_r. unfold priors_of.
    rewrite (proj1 (add_data_fields t s)). reflexivity.
  - exists []. rewrite app_nil_r, mcmc_unfold.
    rewrite (priors_frame _ _ (frame_mcmc_body n sd _)).
    unfold priors_of. rewrite (proj1 (ensure_model_fields s)). reflexivity.
Qed.

Lemma priors_run_ops ops s :
  exists l, priors_of (run_ops ops s) = priors_of s ++ l.
Proof.
  unfold run_ops. revert s; induction ops as [|o ops IH]; simpl; intros s.
  - exists []. rewrite app_nil_r. reflexivity.
  - destruct (priors_run_op o s) as [l1 H1].
    destruct (IH (fst (run_op o s))) as [l2 H2].
    exists (l1 ++ l2). rewrite H2, H1, app_assoc. reflexivity.
Qed.


(** *** [_create_storage] with a non-negative [niter] *)

Lemma create_storage_ok n s :
  (0 <= n)%Z ->
  exists d m,
    create_storage n s =
      (set_mw (set_components s (map (fun c => set_draws c d) (components s)))
              (MWArray m), Ok tt) /\
    nd_rows d = Z.to_nat n /\ nd_cols d = 2%nat /\
    nd_rows m = Z.to_nat n /\ nd_cols m = length (prior_counts s).
Proof.
  intros Hn.
  destruct (np_empty_nonneg n 2 Hn ltac:(lia)) as [d Hd].
  destruct (np_empty_nonneg n (Z.of_nat (length (prior_counts s))) Hn ltac:(lia))
    as [m Hm].
  exists d, m. unfold create_storage. rewrite (create_draws_ok _ _ _ Hd).
  unfold number_of_mixture_components; simpl. rewrite Hm.
  apply np_empty_ok in Hd. apply np_empty_ok in Hm. rewrite Nat2Z.id in Hm.
  repeat split; tauto.
Qed.

Lemma Forall_comp_same_rows n cs cs' :
  Forall2 comp_same cs cs' ->
  Forall (fun c => exists d, draws c = Some d /\ nd_rows d = n) cs ->
  Forall (fun c => exists d, draws c = Some d /\ nd_rows d = n) cs'.
Proof.
  intros HF; induction HF as [|x y xs ys Hxy _ IH]; intros Hall; constructor.
  - inversion Hall as [|? ? (d & Hd & Hr) _]; subst.
    destruct Hxy as (_ & _ & Hs). unfold dshape in Hs. rewrite Hd in Hs.
    destruct (draws y) as [d'|]; simpl in Hs; [|discriminate].
    inversion Hs. eauto.
  - inversion Hall; auto.
Qed.

Lemma rows_inv_record_draw n i : steps (keeps (rows_inv n)) (record_draw i).
Proof.
  intros s (Hw & Hc). unfold record_draw.
  destruct (boom_model s) as [e|]; [|split; assumption].
  destruct (record_components e i 0 (components s)) as [cs' r] eqn:Hr.
  apply record_components_same in Hr.
  pose proof (Forall_comp_same_rows _ _ _ Hr Hc) as Hc'.
  destruct r as [er|]; [split; assumption|]. simpl.
  destruct Hw as (m & Hm & Hrows). rewrite Hm.
  destruct (np_set_row m i (eng_probs e)) as [m'|er] eqn:Hs;
    [|split; [exists m; split|]; assumption].
  apply np_set_row_shape in Hs. split; [|assumption].
  exists m'; simpl; split; [reflexivity|lia].
Qed.

Lemma mcmc_body_rows n sd s :
  (0 <= n)%Z -> rows_inv (Z.to_nat n) (fst (mcmc_body n sd s)).
Proof.
  intros Hn. destruct (create_storage_ok n s Hn) as (d & m & Hc & Hd & _ & Hm & _).
  unfold mcmc_body. unfold bind at 1. rewrite Hc.
  set (s1 := set_mw _ _).
  assert (H1 : rows_inv (Z.to_nat n) s1).
  { split; [exists m; auto|]. simpl. apply Forall_forall.
    intros c Hin. apply in_map_iff in Hin as (c0 & <- & _). exists d; auto. }
  revert H1. generalize s1. clear s1 Hc.
  change (steps (@keeps E (rows_inv (Z.to_nat n)))
    (seed_rng sd ;; for_each (seq 0 (Z.to_nat n))
                     (fun i => sample_posterior ;; record_draw i))).
  assert (Ht : forall x y z, @keeps E (rows_inv (Z.to_nat n)) x y ->
                  @keeps E (rows_inv (Z.to_nat n)) y z -> @keeps E (rows_inv (Z.to_nat n)) x z)
    by (unfold keeps; auto).
  apply steps_bind; auto.
  - intros s0 Hs0; destruct sd; exact Hs0.
  - intros _. apply steps_for_each; auto.
    + unfold keeps; auto.
    + intros i. apply steps_bind; auto; [|intros _; apply rows_inv_record_draw].
      intros s0 Hs0. unfold sample_posterior.
      destruct (boom_model s0) as [e|]; [|exact Hs0].
      destruct (eng_sample_posterior e (global_rng s0)). exact Hs0.
Qed.


(** *** [mcmc] completes on a reliable engine *)

Lemma for_each_ok (P : bbm E -> Prop) xs body s :
  P s ->
  (forall i s0, In i xs -> P s0 -> exists s1, body i s0 = (s1, Ok tt) /\ P s1) ->
  exists s', for_each xs body s = (s', Ok tt) /\ P s'.
Proof.
  revert s; induction xs as [|i xs IH]; simpl; intros s Hs Hb.
  - exists s; auto.
  - destruct (Hb i s (or_introl eq_refl) Hs) as (s1 & Hs1 & HP1).
    unfold bind. rewrite Hs1. apply IH; auto.
Qed.

Context `{!BoomEngineLaws E}.

Lemma record_components_ok e i n cs c :
  (c + length cs <= eng_ncomp e)%nat -> (i < n)%nat -> Forall (table_ok n) cs ->
  exists cs', record_components e i c cs = (cs', None) /\
              length cs' = length cs /\ Forall (table_ok n) cs'.
Proof.
  revert c; induction cs as [|x cs IH]; simpl; intros c Hc Hi Hall.
  - exists []; auto.
  - assert (Hab : eng_component_ab e c <> None) by (apply eng_component_ab_some; lia).
    destruct (eng_component_ab e c) as [[a b]|]; [|congruence].
    inversion Hall as [|? ? (d & Hd & Hr & Hcl) Hrest]; subst.
    rewrite Hd.
    destruct (np_set_row_fits d i [a; b] ltac:(lia) ltac:(simpl; lia)) as [d' Hs].
    rewrite Hs.
    destruct (IH (S c) ltac:(lia) Hi Hrest) as (cs' & Hcs & Hlen & Hok).
    rewrite Hcs. exists (set_draws x d' :: cs'). simpl. repeat split; auto.
    constructor; auto. apply np_set_row_shape in Hs.
    exists d'; simpl; repeat split; lia.
Qed.

Lemma record_draw_ok w n i s :
  running w n s -> (i < n)%nat -> exists s', record_draw i s = (s', Ok tt) /\ running w n s'.
Proof.
  intros (Hw & (e & He & Hnc & Hp) & Hall & (m & Hm & Hr & Hcl)) Hi.
  unfold record_draw. rewrite He.
  destruct (record_components_ok e i n (components s) 0 ltac:(lia) Hi Hall)
    as (cs' & Hcs & Hlen & Hok).
  rewrite Hcs; simpl. rewrite Hm.
  destruct (np_set_row_fits m i (eng_probs e) ltac:(lia) ltac:(lia)) as [m' Hs].
  rewrite Hs. eexists; split; [reflexivity|].
  apply np_set_row_shape in Hs.
  unfold running; simpl. repeat split; auto.
  - exists e; repeat split; auto; lia.
  - exists m'; repeat split; lia.
Qed.

Lemma sample_posterior_ok w n s :
  running w n s -> exists s', sample_posterior s = (s', Ok tt) /\ running w n s'.
Proof.
  intros (Hw & (e & He & Hnc & Hp) & Hall & Hm).
  unfold sample_posterior. rewrite He.
  pose proof (eng_sample_ncomp e (global_rng s)) as Hn.
  pose proof (eng_sample_probs e (global_rng s)) as Hq.
  destruct (eng_sample_posterior e (global_rng s)) as [e' r]; simpl in *.
  eexists; split; [reflexivity|].
  unfold running; simpl. repeat split; auto.
  exists e'; repeat split; auto; lia.
Qed.

Lemma mcmc_body_ok n sd s e :
  (0 <= n)%Z -> boom_model s = Some e ->
  eng_ncomp e = length (components s) -> length (eng_probs e) = length (prior_counts s) ->
  exists s', mcmc_body n sd s = (s', Ok tt) /\ running (warnings s) (Z.to_nat n) s'.
Proof.
  intros Hn He Hnc Hp.
  destruct (create_storage_ok n s Hn) as (d & m & Hc & Hdr & Hdc & Hmr & Hmc).
  unfold mcmc_body. unfold bind at 1. rewrite Hc.
  set (s1 := set_mw _ _).
  assert (H1 : running (warnings s) (Z.to_nat n) s1).
  { unfold running, s1; simpl. repeat split.
    - exists e; rewrite length_map; auto.
    - apply Forall_forall. intros c Hin. apply in_map_iff in Hin as (c0 & <- & _).
      exists d; auto.
    - exists m; auto. }
  assert (Hseed : exists s2, seed_rng sd s1 = (s2, Ok tt) /\
                             running (warnings s) (Z.to_nat n) s2)
    by (destruct sd; eexists; split; [reflexivity | exact H1 | reflexivity | exact H1]).
  destruct Hseed as (s2 & Hs2 & H2).
  unfold bind at 1. rewrite Hs2.
  apply (for_each_ok _ _ _ _ H2).
  intros i s0 Hin Hs0. apply in_seq in Hin.
  destruct (sample_posterior_ok _ _ _ Hs0) as (s3 & Hs3 & HR3).
    unfold bind; rewrite Hs3; apply record_draw_ok; auto; lia.
Qed.

End Proofs.

Section Views.
Context {E : Type} `{BoomEngine E}.
Implicit Types s : bbm E.

(** *** The derived views index the component list with a string *)

Lemma draws_matrix_type_error col s :
  (1 <= number_of_mixture_components s)%nat -> mixing_weights_attr s <> MWMissing ->
  draws_matrix col s = Err TypeError.
Proof.
  intros Hk Hw. unfold draws_matrix.
  assert (Hn : exists n, niter_prop s = Ok n /\ (0 <= n)%Z).
  { unfold niter_prop. destruct (mixing_weights_attr s); [congruence | | ];
      eexists; split; try reflexivity; lia. }
  destruct Hn as (n & -> & Hn). simpl.
  destruct (np_empty_nonneg n (Z.of_nat (number_of_mixture_components s)) Hn
              ltac:(lia)) as [m ->].
  simpl. destruct (number_of_mixture_components s) as [|k]; [lia|].
  reflexivity.
Qed.

Lemma derived_views_type_error s :
  (1 <= number_of_mixture_components s)%nat -> mixing_weights_attr s <> MWMissing ->
  a_prop s = Err TypeError /\ b_prop s = Err TypeError /\
  means_prop s = Err TypeError /\ sample_sizes_prop s = Err TypeError.
Proof.
  intros Hk Hw. unfold means_prop, sample_sizes_prop, a_prop, b_prop.
  rewrite !draws_matrix_type_error by assumption. auto.
Qed.

Lemma reachable_views_type_error ops rng0 :
  (1 <= number_of_mixture_components (run_ops ops (init (E:=E) rng0)))%nat ->
  let s := run_ops ops (init rng0) in
  a_prop s = Err TypeError /\ b_prop s = Err TypeError /\
  means_prop s = Err TypeError /\ sample_sizes_prop s = Err TypeError.
Proof.
  intros Hk. cbv zeta. apply derived_views_type_error; [exact Hk|].
  destruct (shape_inv_reachable ops rng0) as (_ & I2 & _).
  apply I2. unfold number_of_mixture_components in Hk.
  intros Hnil. rewrite Hnil in Hk. simpl in Hk. lia.
Qed.

Lemma mcmc_prior_counts n sd s :
  prior_counts (fst (mcmc n sd s)) = prior_counts s.
Proof.
  rewrite mcmc_unfold. destruct (frame_mcmc_body n sd (fst (ensure_model s))) as (_ & F2 & _).
  rewrite F2. apply ensure_model_fields.
Qed.

(** *** Before any [mcmc] *)

Lemma no_mcmc_weights ops s :
  no_mcmc ops = true ->
  mixing_weights_attr s = MWMissing \/ mixing_weights_attr s = MWNone ->
  mixing_weights_attr (run_ops ops s) = MWMissing \/
  mixing_weights_attr (run_ops ops s) = MWNone.
Proof.
  unfold run_ops. revert s; induction ops as [|o ops IH]; simpl; intros s Hno Hw; auto.
  apply andb_prop in Hno as [Ho Hno]. apply IH; auto.
  destruct o as [mp ssp pc | t | n sd]; simpl; try discriminate.
  - right; reflexivity.
  - rewrite (proj1 (proj2 (proj2 (add_data_fields t s)))). exact Hw.
Qed.

(** *** [add_component] appends to both lists *)

Lemma add_components_count (args : list (prior * prior * Q)) s :
  number_of_mixture_components
    (run_ops (map (fun '(mp, ssp, pc) => OpAddComponent mp ssp pc) args) s)
  = (number_of_mixture_components s + length args)%nat.
Proof.
  unfold run_ops. revert s; induction args as [|[[mp ssp] pc] args IH]; simpl; intros s.
  - lia.
  - rewrite IH. unfold number_of_mixture_components; simpl.
    rewrite length_app; simpl. lia.
Qed.

End Views.

(** ** The claims *)

(** C1 (code defect): once a component has been added and [mcmc] has run,
    [means] and [sample_sizes] do not return [a / (a + b)] and [a + b]:
    both raise [TypeError], because [a] reads [self._components["draws"]]. *)
Theorem means_sample_sizes_raise_after_mcmc {E} `{BoomEngine E}
  (rng0 : Z) (mp ssp : prior) (pc : Q) (n : Z) (sd : option Z) :
  let s := run_ops [OpAddComponent mp ssp pc; OpMcmc n sd] (init (E:=E) rng0) in
  means_prop s = Err TypeError /\ sample_sizes_prop s = Err TypeError.
Proof.
  cbv zeta.
  assert (Hk : (1 <= number_of_mixture_components
                      (run_ops [OpAddComponent mp ssp pc; OpMcmc n sd] (init (E:=E) rng0)))%nat).
  { unfold run_ops, number_of_mixture_components; simpl.
    rewrite mcmc_prior_counts. simpl. lia. }
  destruct (reachable_views_type_error _ _ Hk) as (_ & _ & H3 & H4). auto.
Qed.

(** C2: on every object on which [add_component] has been called (so
    [number_of_mixture_components >= 1]), reading [a], [b], [means] or
    [sample_sizes] raises [TypeError]: the list [self._components] is
    indexed with the string ["draws"]. *)
Theorem derived_views_raise_type_error {E} `{BoomEngine E} (ops : list op) (rng0 : Z) :
  (1 <= number_of_mixture_components (run_ops ops (init (E:=E) rng0)))%nat ->
  let s := run_ops ops (init rng0) in
  a_prop s = Err TypeError /\ b_prop s = Err TypeError /\
  means_prop s = Err TypeError /\ sample_sizes_prop s = Err TypeError.
Proof.
  intros Hk. destruct (reachable_views_type_error ops rng0 Hk) as (A & B & C & D).
  cbv zeta. auto.
Qed.

Lemma derived_views_raise_type_error_witness :
  (1 <= number_of_mixture_components
          (run_ops [OpAddComponent beta_prior_1_1 uniform_prior_01_1000 1]
                   (init (E:=toy_engine) 0)))%nat /\
  a_prop (run_ops [OpAddComponent beta_prior_1_1 uniform_prior_01_1000 1]
                  (init (E:=toy_engine) 0)) = Err TypeError.
Proof.
  split.
  - vm_compute. lia.
  - apply (derived_views_raise_type_error
             [OpAddComponent beta_prior_1_1 uniform_prior_01_1000 1] 0).
    vm_compute. lia.
Defined.

(** C3 (code defect): after [add_component] and [mcmc(niter=1)], [niter]
    is [1] and [mixing_weights] is a 1 x 1 table, but [a] and [b] raise
    [TypeError] instead of returning 1 x 1 tables. *)
Theorem a_b_raise_after_mcmc :
  let s := run_ops [OpAddComponent beta_prior_1_1 uniform_prior_01_1000 1; OpMcmc 1 None]
                   (init (E:=toy_engine) 0) in
  niter_prop s = Ok 1%Z /\
  (exists m, mixing_weights_prop s = Ok (Some m) /\ nd_rows m = 1%nat /\ nd_cols m = 1%nat) /\
  a_prop s = Err TypeError /\ b_prop s = Err TypeError.
Proof.
  vm_compute. repeat split; auto. eexists; repeat split.
Qed.

(** C4, as stated, fails: after [add_component] and before any [mcmc],
    [mixing_weights] is [None], not an empty table. *)
Lemma weights_none_before_mcmc :
  let s := run_ops [OpAddComponent beta_prior_1_1 uniform_prior_01_1000 1]
                   (init (E:=toy_engine) 0) in
  ~ (exists m, mixing_weights_prop s = Ok (Some m) /\ nd_rows m = 0%nat).
Proof.
  vm_compute. intros (m & Hm & _). discriminate.
Qed.

(** C4 (amended): on an object on which [add_component] has been called
    and [mcmc] never, [niter] is [0] and [mixing_weights] is [None]. *)
Theorem before_mcmc_niter_zero_weights_none {E} `{BoomEngine E}
  (ops : list op) (rng0 : Z) :
  no_mcmc ops = true ->
  (1 <= number_of_mixture_components (run_ops ops (init (E:=E) rng0)))%nat ->
  niter_prop (run_ops ops (init (E:=E) rng0)) = Ok 0%Z /\
  mixing_weights_prop (run_ops ops (init (E:=E) rng0)) = Ok None.
Proof.
  intros Hno Hk.
  destruct (shape_inv_reachable ops rng0) as (_ & I2 & _).
  assert (Hne : prior_counts (run_ops ops (init (E:=E) rng0)) <> []).
  { unfold number_of_mixture_components in Hk. intros Hnil.
    rewrite Hnil in Hk. simpl in Hk. lia. }
  specialize (I2 Hne).
  destruct (no_mcmc_weights ops (init rng0) Hno (or_introl eq_refl)) as [Hw|Hw];
    [contradiction|].
  unfold niter_prop, mixing_weights_prop. rewrite Hw. auto.
Qed.

Lemma before_mcmc_niter_zero_weights_none_witness :
  no_mcmc [OpAddComponent beta_prior_1_1 uniform_prior_01_1000 1] = true /\
  (1 <= number_of_mixture_components
          (run_ops [OpAddComponent beta_prior_1_1 uniform_prior_01_1000 1]
                   (init (E:=toy_engine) 0)))%nat /\
  niter_prop (run_ops [OpAddComponent beta_prior_1_1 uniform_prior_01_1000 1]
                      (init (E:=toy_engine) 0)) = Ok 0%Z.
Proof.
  split; [reflexivity|]. split; [vm_compute; lia|].
  apply (before_mcmc_niter_zero_weights_none
           [OpAddComponent beta_prior_1_1 uniform_prior_01_1000 1] 0);
    [reflexivity | vm_compute; lia].
Defined.

(** C5: after [k] calls of [add_component] on a fresh object,
    [number_of_mixture_components] is [k]. *)
Theorem number_of_components_counts_add_component {E} `{BoomEngine E}
  (rng0 : Z) (args : list (prior * prior * Q)) :
  number_of_mixture_components
    (run_ops (map (fun '(mp, ssp, pc) => OpAddComponent mp ssp pc) args)
             (init (E:=E) rng0))
  = length args.
Proof. rewrite add_components_count. reflexivity. Qed.

(** C6: for two successive calls [mcmc(niter=N1)] then [mcmc(niter=N2)],
    the draw storage afterwards has [N2] rows, whatever the first call
    did: [niter] is [N2], the mixing-weight table has [N2] rows and so has
    every component's table of draws. *)
Theorem mcmc_twice_overwrites_storage {E} `{BoomEngine E}
  (s : bbm E) (n1 n2 : Z) (sd1 sd2 : option Z) :
  (0 <= n2)%Z ->
  let s2 := fst (mcmc n2 sd2 (fst (mcmc n1 sd1 s))) in
  niter_prop s2 = Ok n2 /\
  (exists m, mixing_weights_prop s2 = Ok (Some m) /\ nd_rows m = Z.to_nat n2) /\
  Forall (fun c => exists d, draws c = Some d /\ nd_rows d = Z.to_nat n2) (components s2).
Proof.
  intros Hn. cbv zeta. rewrite mcmc_unfold.
  destruct (mcmc_body_rows n2 sd2 (fst (ensure_model (fst (mcmc n1 sd1 s)))) Hn)
    as ((m & Hm & Hr) & Hc).
  unfold niter_prop, mixing_weights_prop. rewrite Hm.
  repeat split; auto.
  - rewrite Hr, Z2Nat.id by lia. reflexivity.
  - exists m; auto.
Qed.

Lemma mcmc_twice_overwrites_storage_witness :
  (0 <= 2)%Z /\
  niter_prop (fst (mcmc 2 None (fst (mcmc 3 None
    (run_ops [OpAddComponent beta_prior_1_1 uniform_prior_01_1000 1]
             (init (E:=toy_engine) 0)))))) = Ok 2%Z.
Proof.
  split; [lia|].
  apply (mcmc_twice_overwrites_storage
           (run_ops [OpAddComponent beta_prior_1_1 uniform_prior_01_1000 1]
                    (init (E:=toy_engine) 0)) 3 2 None None).
  lia.
Defined.

(** C7: [mcmc] on an object with no underlying model builds one from the
    components alone, emits the warning "Running MCMC on a model with no
    data assigned.", and runs the sampling loop; it completes, recording
    [niter] draws. *)
Theorem mcmc_without_data_warns_and_runs {E} `{BoomEngineLaws E}
  (s : bbm E) (n : Z) (sd : option Z) :
  boom_model s = None -> (0 <= n)%Z ->
  mcmc n sd s =
    mcmc_body n sd (warn (set_boom s (Some (build_boom_model s))) no_data_warning) /\
  exists s', mcmc n sd s = (s', Ok tt) /\
             warnings s' = warnings s ++ [no_data_warning] /\
             niter_prop s' = Ok n.
Proof.
  intros Hb Hn.
  assert (Hm : mcmc n sd s =
      mcmc_body n sd (warn (set_boom s (Some (build_boom_model s))) no_data_warning)).
  { rewrite mcmc_unfold. unfold ensure_model. rewrite Hb. reflexivity. }
  split; [exact Hm|]. rewrite Hm.
  destruct (mcmc_body_ok n sd (warn (set_boom s (Some (build_boom_model s))) no_data_warning)
              (build_boom_model s) Hn eq_refl) as (s' & Hs' & (Hw & _ & _ & (m & Hmw & Hr & _))).
  - unfold build_boom_model. rewrite eng_build_ncomp, length_map. reflexivity.
  - unfold build_boom_model. rewrite eng_build_probs. reflexivity.
  - exists s'. repeat split; auto.
    unfold niter_prop. rewrite Hmw, Hr, Z2Nat.id by lia. reflexivity.
Qed.

Lemma mcmc_without_data_warns_and_runs_witness :
  boom_model (run_ops [OpAddComponent beta_prior_1_1 uniform_prior_01_1000 1]
                      (init (E:=toy_engine) 0)) = None /\ (0 <= 2)%Z /\
  exists s', mcmc 2 None (run_ops [OpAddComponent beta_prior_1_1 uniform_prior_01_1000 1]
                                  (init (E:=toy_engine) 0)) = (s', Ok tt) /\
             warnings s' = [no_data_warning] /\ niter_prop s' = Ok 2%Z.
Proof.
  split; [reflexivity|]. split; [lia|].
  apply (mcmc_without_data_warns_and_runs
           (run_ops [OpAddComponent beta_prior_1_1 uniform_prior_01_1000 1]
                    (init (E:=toy_engine) 0)) 2 None); [reflexivity | lia].
Defined.

(** C8, as stated, fails: a four-column table with a negative count is
    accepted, and its first three columns reach the engine. *)
Lemma add_data_accepts_negative_counts :
  let s := run_ops [OpAddComponent beta_prior_1_1 uniform_prior_01_1000 1]
                   (init (E:=toy_engine) 0) in
  let t := NdArray (mk_nd 1 4 [[10; 4; -3; 8]]%Q) in
  exists s', add_data t s = (s', Ok tt) /\
             option_map toy_data (boom_model s') = Some [(10, 4, -3)%Z].
Proof.
  vm_compute. eexists; split; reflexivity.
Qed.

(** C8 (amended): [add_data] validates nothing.  For a numeric table whose
    entries fit numpy's 64-bit integer, it builds the model when there is
    none, casts the table to integers and forwards its first three
    columns to the engine, whatever their values and however many further
    columns there are; a table with fewer than three columns raises
    [IndexError], after the model has been built. *)
Theorem add_data_forwards_unvalidated {E} `{BoomEngine E} (s : bbm E) (t : table) :
  fits_int64 (table_values t) = true ->
  let m := table_values t in
  let e := match boom_model s with Some e => e | None => build_boom_model s end in
  add_data t s =
    if Nat.leb 3 (nd_cols m) then
      (set_boom s (Some (eng_add_data e (int_column m 0) (int_column m 1) (int_column m 2))),
       Ok tt)
    else (set_boom s (Some e), Err IndexError).
Proof.
  intros _. destruct s as [cs pc w b r ws]. cbv zeta.
  unfold add_data, np_col, int_column. simpl.
  destruct (table_values t) as [rows cols data].
  destruct b as [e|]; simpl;
    destruct cols as [|[|[|k]]]; reflexivity.
Qed.

Lemma add_data_forwards_unvalidated_witness :
  fits_int64 (mk_nd 1 4 [[10; 4; -3; 8]]%Q) = true /\
  add_data (NdArray (mk_nd 1 4 [[10; 4; -3; 8]]%Q)) (init (E:=toy_engine) 0) =
    (set_boom (init 0) (Some (mk_toy [] [] [(10, 4, -3)%Z])), Ok tt).
Proof.
  split; [vm_compute; reflexivity|].
  rewrite (add_data_forwards_unvalidated (init (E:=toy_engine) 0)
             (NdArray (mk_nd 1 4 [[10; 4; -3; 8]]%Q))) by (vm_compute; reflexivity).
  vm_compute. reflexivity.
Defined.

(** C9, as stated, fails: a component's table of draws has two columns,
    [a] and [b], whatever the number of components. *)
Lemma draws_table_has_two_columns :
  let s := run_ops [OpAddComponent beta_prior_1_1 uniform_prior_01_1000 1; OpMcmc 1 None]
                   (init (E:=toy_engine) 0) in
  exists c d, In c (components s) /\ draws c = Some d /\
              nd_cols d <> number_of_mixture_components s.
Proof.
  vm_compute. do 2 eexists. split; [left; reflexivity|].
  split; [reflexivity|]. discriminate.
Qed.

(** C9 (amended): every sequence of calls keeps as many prior counts as
    component specs; when the mixing-weight table is allocated it has one
    column per component, and each component's table of draws has two
    columns. *)
Theorem prior_counts_components_columns {E} `{BoomEngine E} (ops : list op) (rng0 : Z) :
  let s := run_ops ops (init (E:=E) rng0) in
  length (prior_counts s) = length (components s) /\
  (forall m, mixing_weights_attr s = MWArray m -> nd_cols m = number_of_mixture_components s) /\
  (forall c d, In c (components s) -> draws c = Some d -> nd_cols d = 2%nat).
Proof.
  cbv zeta. destruct (shape_inv_reachable ops rng0) as (I1 & _ & I3 & I4).
  repeat split; auto.
  intros c d Hin Hd. rewrite Forall_forall in I4. specialize (I4 c Hin).
  unfold dcols in I4. rewrite Hd in I4. simpl in I4.
  destruct I4 as [I4|I4]; inversion I4; reflexivity.
Qed.

Section NegativeNiter.
Context {E : Type} `{BoomEngine E}.

(** [mcmc] with a negative [niter]: the first [np.empty] raises. *)
Lemma create_storage_negative n (s : bbm E) :
  (n < 0)%Z -> create_storage n s = (set_components s (components s), Err ValueError).
Proof.
  intros Hn. unfold create_storage.
  assert (He : forall c, np_empty n c = Err ValueError).
  { intros c. unfold np_empty. replace (n <? 0)%Z with true; [reflexivity|].
    symmetry. apply Z.ltb_lt. exact Hn. }
  destruct (components s) as [|c cs] eqn:Hc; simpl.
  - rewrite He. reflexivity.
  - rewrite He. reflexivity.
Qed.

End NegativeNiter.

(** C10, as stated, fails: [mcmc] adds the key ["draws"] to every
    component dict. *)
Lemma mcmc_adds_draws_field :
  let s0 := run_ops [OpAddComponent beta_prior_1_1 uniform_prior_01_1000 1]
                    (init (E:=toy_engine) 0) in
  let s1 := run_ops [OpMcmc 1 None] s0 in
  map component_keys (components s0) = [["mean_prior"; "sample_size_prior"]] /\
  map component_keys (components s1) = [["mean_prior"; "sample_size_prior"; "draws"]].
Proof. vm_compute. split; reflexivity. Qed.

(** C10 (amended): no call changes the [mean_prior] or [sample_size_prior]
    of a component already added, nor its position: the list of priors is
    only extended at its end.  [add_data] leaves the component dicts as
    they are, [add_component] appends one with the keys ["mean_prior"] and
    ["sample_size_prior"], and [mcmc] with [niter >= 0] gives every
    component dict the key ["draws"] (added or replaced), while [mcmc]
    with a negative [niter] raises before changing any component. *)
Theorem component_priors_never_change {E} `{BoomEngine E} (s : bbm E) (ops : list op) :
  (exists l, priors_of (run_ops ops s) = priors_of s ++ l) /\
  (forall t, components (fst (add_data t s)) = components s) /\
  (forall mp ssp pc,
     components (fst (add_component mp ssp pc s)) = components s ++ [mk_component mp ssp None] /\
     component_keys (mk_component mp ssp None) = ["mean_prior"; "sample_size_prior"]) /\
  (forall n sd, (0 <= n)%Z ->
     Forall (fun c => component_keys c = ["mean_prior"; "sample_size_prior"; "draws"])
            (components (fst (mcmc n sd s)))) /\
  (forall n sd, (n < 0)%Z -> components (fst (mcmc n sd s)) = components s).
Proof.
  split; [apply priors_run_ops|]. split; [intros t; apply add_data_fields|].
  split; [intros; split; reflexivity|]. split.
  - intros n sd Hn. rewrite mcmc_unfold.
    destruct (mcmc_body_rows n sd (fst (ensure_model s)) Hn) as (_ & Hc).
    revert Hc. apply Forall_impl. intros c (d & Hd & _).
    unfold component_keys. rewrite Hd. reflexivity.
  - intros n sd Hn. rewrite mcmc_unfold. unfold mcmc_body, bind.
    rewrite create_storage_negative by exact Hn. simpl.
    apply ensure_model_fields.
Qed.

Lemma component_priors_never_change_witness :
  let s := run_ops [OpAddComponent beta_prior_1_1 uniform_prior_01_1000 1]
                   (init (E:=toy_engine) 0) in
  (0 <= 1)%Z /\ (-1 < 0)%Z /\
  Forall (fun c => component_keys c = ["mean_prior"; "sample_size_prior"; "draws"])
         (components (fst (mcmc 1 None s))) /\
  components (fst (mcmc (-1) None s)) = components s.
Proof.
  cbv zeta. split; [lia|]. split; [lia|]. split.
  - apply (proj1 (proj2 (proj2 (proj2 (component_priors_never_change
             (run_ops [OpAddComponent beta_prior_1_1 uniform_prior_01_1000 1]
                      (init (E:=toy_engine) 0)) []))))).
    lia.
  - apply (proj2 (proj2 (proj2 (proj2 (component_priors_never_change
             (run_ops [OpAddComponent beta_prior_1_1 uniform_prior_01_1000 1]
                      (init (E:=toy_engine) 0)) []))))).
    lia.
Defined.

(** ** Further properties of the module *)

Section Extras.
Context {E : Type} `{BoomEngine E}.
Implicit Types s : bbm E.

Lemma only_add_data_missing ops s :
  only_add_data ops = true -> mixing_weights_attr s = MWMissing ->
  mixing_weights_attr (run_ops ops s) = MWMissing.
Proof.
  unfold run_ops. revert s; induction ops as [|o ops IH]; simpl; intros s Hops Hw; auto.
  apply andb_prop in Hops as [Ho Hops]. apply IH; auto.
  destruct o as [mp ssp pc | t | n sd]; try discriminate. simpl.
  rewrite (proj1 (proj2 (proj2 (add_data_fields t s)))). exact Hw.
Qed.

Lemma boom_kept_mcmc_body n sd :
  steps (keeps (fun s => boom_model s <> None)) (mcmc_body n sd).
Proof.
  apply steps_mcmc_body; unfold keeps; auto.
  - intros s Hs. unfold create_storage.
    destruct (create_draws n (components s)) as [cs' r].
    destruct r; [exact Hs|]. destruct (np_empty _ _); exact Hs.
  - intros s Hs. destruct sd; exact Hs.
  - intros s Hs. unfold sample_posterior.
    destruct (boom_model s) as [e|]; [|congruence].
    destruct (eng_sample_posterior e (global_rng s)). simpl. discriminate.
  - intros i s Hs. unfold record_draw.
    destruct (boom_model s) as [e|] eqn:Hb; [|congruence].
    destruct (record_components e i 0 (components s)) as [cs' r].
    destruct r; [simpl; congruence|]. simpl.
    destruct (mixing_weights_attr s); simpl; try congruence.
    destruct (np_set_row _ _ _); simpl; congruence.
Qed.

Lemma draws_matrix_zero_components col s n :
  number_of_mixture_components s = 0%nat -> niter_prop s = Ok n -> (0 <= n)%Z ->
  draws_matrix col s = Ok (mk_nd (Z.to_nat n) 0 (repeat [] (Z.to_nat n))).
Proof.
  intros Hk Hni Hn.
  assert (He : np_empty n 0 = Ok (mk_nd (Z.to_nat n) 0 (repeat [] (Z.to_nat n)))).
  { unfold np_empty. replace ((n <? 0)%Z || (0 <? 0)%Z) with false; [reflexivity|].
    symmetry. apply Bool.orb_false_iff; split; apply Z.ltb_ge; lia. }
  unfold draws_matrix. rewrite Hni, Hk. simpl. rewrite He. reflexivity.
Qed.

End Extras.

(** Every call after the first [add_component] or [mcmc] finds the
    attribute [_mixing_weights]; before that, only [add_data] having been
    called, [niter], [mixing_weights], [a] and [means] raise
    [AttributeError], because [__init__] does not set it. *)
Theorem no_component_no_mcmc_attribute_error {E} `{BoomEngine E}
  (ops : list op) (rng0 : Z) :
  only_add_data ops = true ->
  let s := run_ops ops (init (E:=E) rng0) in
  niter_prop s = Err AttributeError /\ mixing_weights_prop s = Err AttributeError /\
  a_prop s = Err AttributeError /\ means_prop s = Err AttributeError.
Proof.
  intros Hops. cbv zeta.
  pose proof (only_add_data_missing ops (init rng0) Hops eq_refl) as Hw.
  unfold means_prop, a_prop, draws_matrix, niter_prop, mixing_weights_prop.
  rewrite Hw. repeat split; reflexivity.
Qed.

Lemma no_component_no_mcmc_attribute_error_witness :
  only_add_data [OpAddData (NdArray (mk_nd 1 3 [[10; 4; 28]]%Q))] = true /\
  niter_prop (run_ops [OpAddData (NdArray (mk_nd 1 3 [[10; 4; 28]]%Q))]
                      (init (E:=toy_engine) 0)) = Err AttributeError.
Proof.
  split; [reflexivity|].
  apply (no_component_no_mcmc_attribute_error
           [OpAddData (NdArray (mk_nd 1 3 [[10; 4; 28]]%Q))] 0).
  reflexivity.
Defined.

(** With no component, [mcmc(niter=N)] leaves [a] and [b] as empty
    N x 0 tables, and [means] and [sample_sizes] as N x 0 tables: the
    string index in [a] and [b] is never reached. *)
Theorem zero_components_views_empty {E} `{BoomEngine E}
  (s : bbm E) (n : Z) (sd : option Z) :
  number_of_mixture_components s = 0%nat -> (0 <= n)%Z ->
  let s1 := fst (mcmc n sd s) in
  a_prop s1 = Ok (mk_nd (Z.to_nat n) 0 (repeat [] (Z.to_nat n))) /\
  b_prop s1 = Ok (mk_nd (Z.to_nat n) 0 (repeat [] (Z.to_nat n))) /\
  (exists m, means_prop s1 = Ok m /\ nd_rows m = Z.to_nat n /\ nd_cols m = 0%nat) /\
  (exists m, sample_sizes_prop s1 = Ok m /\ nd_rows m = Z.to_nat n /\ nd_cols m = 0%nat).
Proof.
  intros Hk0 Hn. cbv zeta.
  assert (Hk : number_of_mixture_components (fst (mcmc n sd s)) = 0%nat)
    by (unfold number_of_mixture_components; rewrite mcmc_prior_counts; exact Hk0).
  assert (Hni : niter_prop (fst (mcmc n sd s)) = Ok n).
  { rewrite mcmc_unfold.
    destruct (mcmc_body_rows n sd (fst (ensure_model s)) Hn) as ((m & Hm & Hr) & _).
    unfold niter_prop. rewrite Hm, Hr, Z2Nat.id by lia. reflexivity. }
  assert (Ha := draws_matrix_zero_components 0 _ n Hk Hni Hn).
  assert (Hb := draws_matrix_zero_components 1 _ n Hk Hni Hn).
  unfold means_prop, sample_sizes_prop, a_prop, b_prop. rewrite Ha, Hb. simpl.
  unfold np_map2. simpl. rewrite !Nat.eqb_refl. simpl.
  repeat split; auto; rewrite ?Nat.eqb_refl; simpl; eexists; repeat split.
Qed.

Lemma zero_components_views_empty_witness :
  number_of_mixture_components (init (E:=toy_engine) 0) = 0%nat /\ (0 <= 2)%Z /\
  a_prop (fst (mcmc 2 None (init (E:=toy_engine) 0))) =
    Ok (mk_nd 2 0 [[]; []]).
Proof.
  split; [reflexivity|]. split; [lia|].
  apply (zero_components_views_empty (init (E:=toy_engine) 0) 2 None);
    [reflexivity | lia].
Defined.

(** [mcmc] with a negative [niter] raises [ValueError] from [np.empty]
    before touching the stored draws: the components, the mixing-weight
    table and [niter] are those of the previous run. *)
Theorem mcmc_negative_niter_keeps_storage {E} `{BoomEngine E}
  (s : bbm E) (n : Z) (sd : option Z) :
  (n < 0)%Z ->
  snd (mcmc n sd s) = Err ValueError /\
  components (fst (mcmc n sd s)) = components s /\
  mixing_weights_attr (fst (mcmc n sd s)) = mixing_weights_attr s /\
  niter_prop (fst (mcmc n sd s)) = niter_prop s.
Proof.
  intros Hn. rewrite mcmc_unfold. unfold mcmc_body, bind.
  rewrite create_storage_negative by exact Hn. simpl.
  destruct (ensure_model_fields s) as (A1 & _ & A3).
  unfold niter_prop. simpl. rewrite A1, A3. auto.
Qed.

Lemma mcmc_negative_niter_keeps_storage_witness :
  (-1 < 0)%Z /\
  snd (mcmc (-1) None (fst (mcmc 2 None
         (run_ops [OpAddComponent beta_prior_1_1 uniform_prior_01_1000 1]
                  (init (E:=toy_engine) 0))))) = Err ValueError.
Proof.
  split; [lia|].
  apply (mcmc_negative_niter_keeps_storage
           (fst (mcmc 2 None
              (run_ops [OpAddComponent beta_prior_1_1 uniform_prior_01_1000 1]
                       (init (E:=toy_engine) 0)))) (-1) None).
  lia.
Defined.

(** [add_component] after [mcmc] makes [niter] report [0] and
    [mixing_weights] [None], while the components sampled before keep
    their N-row tables of draws and the new one has none. *)
Theorem add_component_after_mcmc_resets_niter {E} `{BoomEngine E}
  (s : bbm E) (n : Z) (sd : option Z) (mp ssp : prior) (pc : Q) :
  (0 <= n)%Z ->
  let s1 := fst (mcmc n sd s) in
  let s2 := fst (add_component mp ssp pc s1) in
  niter_prop s2 = Ok 0%Z /\ mixing_weights_prop s2 = Ok None /\
  components s2 = components s1 ++ [mk_component mp ssp None] /\
  Forall (fun c => exists d, draws c = Some d /\ nd_rows d = Z.to_nat n) (components s1).
Proof.
  intros Hn. cbv zeta.
  destruct (mcmc_body_rows n sd (fst (ensure_model s)) Hn) as (_ & Hc).
  rewrite <- mcmc_unfold in Hc. simpl. repeat split; auto.
Qed.

Lemma add_component_after_mcmc_resets_niter_witness :
  (0 <= 2)%Z /\
  niter_prop (fst (add_component beta_prior_1_1 uniform_prior_01_1000 1
                    (fst (mcmc 2 None (init (E:=toy_engine) 0))))) = Ok 0%Z.
Proof.
  split; [lia|].
  apply (add_component_after_mcmc_resets_niter (init (E:=toy_engine) 0) 2 None
           beta_prior_1_1 uniform_prior_01_1000 1).
  lia.
Defined.

(** The "no data" warning is emitted once per object: a second [mcmc]
    finds the model the first one built, whatever became of that call. *)
Theorem no_data_warning_emitted_once {E} `{BoomEngine E}
  (s : bbm E) (n1 n2 : Z) (sd1 sd2 : option Z) :
  boom_model s = None ->
  warnings (fst (mcmc n2 sd2 (fst (mcmc n1 sd1 s)))) = warnings s ++ [no_data_warning].
Proof.
  intros Hb.
  assert (W1 : warnings (fst (mcmc n1 sd1 s)) = warnings s ++ [no_data_warning]).
  { rewrite mcmc_unfold.
    destruct (frame_mcmc_body n1 sd1 (fst (ensure_model s))) as (_ & _ & F3 & _).
    rewrite F3. unfold ensure_model. rewrite Hb. reflexivity. }
  assert (B1 : boom_model (fst (mcmc n1 sd1 s)) <> None).
  { rewrite mcmc_unfold. apply boom_kept_mcmc_body.
    unfold ensure_model. rewrite Hb. simpl. discriminate. }
  revert W1 B1. generalize (fst (mcmc n1 sd1 s)). intros s1 W1 B1.
  rewrite mcmc_unfold.
  destruct (frame_mcmc_body n2 sd2 (fst (ensure_model s1))) as (_ & _ & F3 & _).
  rewrite F3. unfold ensure_model.
  destruct (boom_model s1); [exact W1 | congruence].
Qed.

Lemma no_data_warning_emitted_once_witness :
  boom_model (init (E:=toy_engine) 0) = None /\
  warnings (fst (mcmc 1 None (fst (mcmc 2 None (init (E:=toy_engine) 0))))) =
    [no_data_warning].
Proof.
  split; [reflexivity|].
  apply (no_data_warning_emitted_once (init (E:=toy_engine) 0) 2 1 None None).
  reflexivity.
Defined.

Section Stale.
Context {E : Type} `{BoomEngine E} `{!BoomEngineLaws E}.

Lemma bind_ok {A B} (m : M E A) (k : A -> M E B) s s' a :
  m s = (s', Ok a) -> bind m k s = k a s'.
Proof. intros Hm. unfold bind. rewrite Hm. reflexivity. Qed.

Lemma bind_err {A B} (m : M E A) (k : A -> M E B) s s' er :
  m s = (s', Err er) -> bind m k s = (s', Err er).
Proof. intros Hm. unfold bind. rewrite Hm. reflexivity. Qed.

(** Walking the components with an engine that knows fewer of them than
    the object holds reaches an index the engine refuses. *)
Lemma record_components_stale e i n cs c :
  (forall c', (eng_ncomp e <= c')%nat -> eng_component_ab e c' = None) ->
  (c <= eng_ncomp e)%nat -> (eng_ncomp e < c + length cs)%nat ->
  (i < n)%nat -> Forall (table_ok n) cs ->
  snd (record_components e i c cs) = Some EngineError.
Proof.
  intros Hnone. revert c; induction cs as [|x cs IH]; simpl; intros c Hc Hlt Hi Hall.
  - lia.
  - destruct (Nat.eq_dec c (eng_ncomp e)) as [->|Hne].
    + rewrite Hnone by lia. reflexivity.
    + assert (Hab : eng_component_ab e c <> None) by (apply eng_component_ab_some; lia).
      destruct (eng_component_ab e c) as [[a b]|]; [|congruence].
      inversion Hall as [|? ? (d & Hd & Hr & Hcl) Hrest]; subst.
      rewrite Hd.
      destruct (np_set_row_fits d i [a; b] ltac:(lia) ltac:(simpl; lia)) as [d' Hs].
      rewrite Hs.
      specialize (IH (S c) ltac:(lia) ltac:(lia) Hi Hrest).
      destruct (record_components e i (S c) cs) as [rest' r]. simpl in *. exact IH.
Qed.

Lemma record_draw_stale e i n s :
  (forall c', (eng_ncomp e <= c')%nat -> eng_component_ab e c' = None) ->
  boom_model s = Some e -> (eng_ncomp e < length (components s))%nat ->
  (i < n)%nat -> Forall (table_ok n) (components s) ->
  snd (record_draw i s) = Err EngineError.
Proof.
  intros Hnone He Hlt Hi Hall. unfold record_draw. rewrite He.
  pose proof (record_components_stale e i n (components s) 0 Hnone
                ltac:(lia) ltac:(lia) Hi Hall) as Hr.
  destruct (record_components e i 0 (components s)) as [cs' r]. simpl in Hr.
  subst r. reflexivity.
Qed.

End Stale.

(** [add_component] after the model was built does not rebuild it: the
    engine keeps its old number of components, and the next [mcmc]
    with at least one iteration fails in [_record_draw] when it asks the
    engine for a component it does not have. *)
Theorem mcmc_stale_engine_after_add_component {E} `{BoomEngine E} `{!BoomEngineLaws E}
  (s : bbm E) (e : E) (n : Z) (sd : option Z) :
  (forall e' c, (eng_ncomp e' <= c)%nat -> eng_component_ab e' c = None) ->
  boom_model s = Some e ->
  (eng_ncomp e < length (components s))%nat ->
  (1 <= n)%Z ->
  snd (mcmc n sd s) = Err EngineError.
Proof.
  intros Hnone He Hlt Hn.
  rewrite mcmc_unfold. unfold ensure_model at 1. rewrite He. cbn [fst].
  destruct (create_storage_ok n s ltac:(lia)) as (d & m & Hc & Hdr & Hdc & _).
  revert Hc. set (s1 := set_mw _ _). intros Hc.
  assert (B1 : boom_model s1 = Some e) by exact He.
  assert (L1 : length (components s1) = length (components s)).
  { subst s1. simpl. apply length_map. }
  assert (T1 : Forall (table_ok (Z.to_nat n)) (components s1)).
  { subst s1. simpl. apply Forall_forall. intros c Hin.
    apply in_map_iff in Hin as (c0 & <- & _). exists d. simpl. auto. }
  clearbody s1.
  assert (Hseq : seq 0 (Z.to_nat n) = 0%nat :: seq 1 (Z.to_nat n - 1)).
  { destruct (Z.to_nat n) eqn:Ht; [lia|]. simpl. rewrite Nat.sub_0_r. reflexivity. }
  set (s2 := fst (seed_rng sd s1)).
  assert (Hsd : seed_rng sd s1 = (s2, Ok tt)) by (subst s2; destruct sd; reflexivity).
  assert (B2 : boom_model s2 = Some e) by (subst s2; destruct sd; exact B1).
  assert (C2 : components s2 = components s1) by (subst s2; destruct sd; reflexivity).
  clearbody s2.
  unfold mcmc_body. rewrite (bind_ok _ _ _ _ _ Hc), (bind_ok _ _ _ _ _ Hsd), Hseq.
  cbn [for_each].
  pose proof (eng_sample_ncomp e (global_rng s2)) as Hnc.
  destruct (eng_sample_posterior e (global_rng s2)) as [e' r] eqn:Hsp.
  simpl in Hnc.
  set (s3 := set_rng (set_boom s2 (Some e')) r).
  assert (Hsp3 : sample_posterior s2 = (s3, Ok tt))
    by (unfold sample_posterior; rewrite B2, Hsp; reflexivity).
  pose proof (record_draw_stale e' 0 (Z.to_nat n) s3 (Hnone e') eq_refl
                ltac:(subst s3; simpl; rewrite C2; lia) ltac:(lia)
                ltac:(subst s3; simpl; rewrite C2; exact T1)) as Hrd.
  destruct (record_draw 0 s3) as [s4 r4] eqn:Hr4. simpl in Hrd. subst r4.
  assert (Hbody : (sample_posterior ;; record_draw 0) s2 = (s4, Err EngineError))
    by (rewrite (bind_ok _ _ _ _ _ Hsp3); exact Hr4).
  rewrite (bind_err _ _ _ _ _ Hbody). reflexivity.
Qed.

Lemma mcmc_stale_engine_after_add_component_witness :
  let s := run_ops [OpAddComponent beta_prior_1_1 uniform_prior_01_1000 1;
                    OpAddData (NdArray (mk_nd 1 3 [[10; 4; 28]]%Q));
                    OpAddComponent beta_prior_1_1 uniform_prior_01_1000 1]
                   (init (E:=toy_engine) 0) in
  snd (mcmc 3 None s) = Err EngineError.
Proof.
  cbv zeta.
  refine (mcmc_stale_engine_after_add_component _ (mk_toy [(1, 1)]%Q [1%Q] [(10, 4, 28)]%Z) 3 None
            _ _ _ _).
  - intros e' c Hc. simpl. apply nth_error_None. exact Hc.
  - vm_compute. reflexivity.
  - vm_compute. lia.
  - lia.
Defined.

Section LastRow.
Context {E : Type} `{BoomEngine E}.

Lemma replace_nth_length {A} i (x : A) l : length (replace_nth i x l) = length l.
Proof. revert i; induction l as [|h t IH]; intros [|i]; simpl; auto. Qed.

Lemma nth_error_replace_nth_same {A} i (x : A) l :
  (i < length l)%nat -> nth_error (replace_nth i x l) i = Some x.
Proof.
  revert i; induction l as [|h t IH]; intros [|i] Hi; simpl in *; try lia; auto.
  apply IH; lia.
Qed.

Lemma np_empty_wf r c m : np_empty r c = Ok m -> nd_wf m.
Proof.
  unfold np_empty, nd_wf. destruct (_ || _); intros Hm; inversion Hm; subst; simpl.
  apply repeat_length.
Qed.

Lemma np_set_row_wf m i v m' : nd_wf m -> np_set_row m i v = Ok m' -> nd_wf m'.
Proof.
  unfold nd_wf, np_set_row. intros Hw.
  destruct (Nat.ltb i (nd_rows m)); [|discriminate].
  destruct (Nat.eqb (length v) (nd_cols m)).
  - intros Hm; inversion Hm; subst; simpl. rewrite replace_nth_length. exact Hw.
  - destruct (Nat.eqb (length v) 1); [|discriminate].
    intros Hm; inversion Hm; subst; simpl. rewrite replace_nth_length. exact Hw.
Qed.

(** A successful [m[i, :] = v] with a [v] that is not broadcast stores [v]. *)
Lemma np_set_row_row m i v m' :
  nd_wf m -> length v <> 1%nat -> np_set_row m i v = Ok m' ->
  nth_error (nd_data m') i = Some v.
Proof.
  unfold nd_wf, np_set_row. intros Hw Hv.
  destruct (Nat.ltb i (nd_rows m)) eqn:Hi; [|discriminate]. apply Nat.ltb_lt in Hi.
  destruct (Nat.eqb (length v) (nd_cols m)).
  - intros Hm; inversion Hm; subst; simpl. apply nth_error_replace_nth_same. lia.
  - apply Nat.eqb_neq in Hv. rewrite Hv. discriminate.
Qed.

Lemma np_set_row_row_cols m i v m' :
  nd_wf m -> length v = nd_cols m -> np_set_row m i v = Ok m' ->
  nth_error (nd_data m') i = Some v.
Proof.
  unfold nd_wf, np_set_row. intros Hw Hv.
  destruct (Nat.ltb i (nd_rows m)) eqn:Hi; [|discriminate]. apply Nat.ltb_lt in Hi.
  rewrite Hv, Nat.eqb_refl. intros Hm; inversion Hm; subst; simpl.
  apply nth_error_replace_nth_same. lia.
Qed.

Lemma record_components_wf e i c cs cs' r :
  Forall (fun c0 => forall d, draws c0 = Some d -> nd_wf d) cs ->
  record_components e i c cs = (cs', r) ->
  Forall (fun c0 => forall d, draws c0 = Some d -> nd_wf d) cs'.
Proof.
  revert c cs' r; induction cs as [|x cs IH]; simpl; intros c cs' r Hall Hr.
  - inversion Hr; subst; constructor.
  - inversion Hall as [|? ? Hx Hrest]; subst.
    destruct (eng_component_ab e c) as [[a b]|]; [|inversion Hr; subst; auto].
    destruct (draws x) as [d|] eqn:Hd; [|inversion Hr; subst; auto].
    destruct (np_set_row d i [a; b]) as [d'|er] eqn:Hs; [|inversion Hr; subst; auto].
    destruct (record_components e i (S c) cs) as [rest' r'] eqn:Hrc.
    inversion Hr; subst. constructor.
    + intros d0 Hd0. simpl in Hd0. inversion Hd0; subst.
      eapply np_set_row_wf; [apply Hx; first [exact Hd | reflexivity] | exact Hs].
    + eapply IH; eauto.
Qed.

Lemma record_components_rows e i c cs cs' :
  Forall (fun c0 => forall d, draws c0 = Some d -> nd_wf d) cs ->
  record_components e i c cs = (cs', None) ->
  forall j comp, nth_error cs' j = Some comp ->
  exists a b d, eng_component_ab e (c + j) = Some (a, b) /\ draws comp = Some d /\
                nth_error (nd_data d) i = Some [a; b].
Proof.
  revert c cs'; induction cs as [|x cs IH]; simpl; intros c cs' Hall Hr j comp Hj.
  - inversion Hr; subst. destruct j; discriminate.
  - inversion Hall as [|? ? Hx Hrest]; subst.
    destruct (eng_component_ab e c) as [[a b]|] eqn:Hab; [|discriminate].
    destruct (draws x) as [d|] eqn:Hd; [|discriminate].
    destruct (np_set_row d i [a; b]) as [d'|er] eqn:Hs; [|discriminate].
    destruct (record_components e i (S c) cs) as [rest' r'] eqn:Hrc.
    inversion Hr; subst.
    destruct j as [|j]; simpl in Hj.
    + inversion Hj; subst. exists a, b, d'. rewrite Nat.add_0_r.
      split; [exact Hab|]. split; [reflexivity|].
      eapply np_set_row_row; [apply Hx; first [exact Hd | reflexivity] | simpl; lia | exact Hs].
    + destruct (IH (S c) rest' Hrest Hrc j comp Hj) as (a' & b' & d'' & H1 & H2 & H3).
      exists a', b', d''. replace (c + S j)%nat with (S c + j)%nat by lia. auto.
Qed.

Lemma create_draws_wf n cs cs' :
  create_draws n cs = (cs', None) ->
  Forall (fun c0 => forall d, draws c0 = Some d -> nd_wf d) cs'.
Proof.
  revert cs'; induction cs as [|x cs IH]; simpl; intros cs' Hr.
  - inversion Hr; subst; constructor.
  - destruct (np_empty n 2) as [d|er] eqn:He; [|discriminate].
    destruct (create_draws n cs) as [rest' r'] eqn:Hrc.
    inversion Hr; subst. constructor.
    + intros d0 Hd0. simpl in Hd0. inversion Hd0; subst. eapply np_empty_wf; exact He.
    + apply IH; reflexivity.
Qed.

Lemma create_storage_wf n s s1 :
  create_storage n s = (s1, Ok tt) -> @storage_wf E s1.
Proof.
  unfold create_storage.
  destruct (create_draws n (components s)) as [cs' r] eqn:Hcd.
  destruct r as [er|]; [discriminate|].
  destruct (np_empty _ _) as [m|er] eqn:He; [|discriminate].
  intros Hs; inversion Hs; subst. split; simpl.
  - eapply create_draws_wf; exact Hcd.
  - intros m0 Hm0; inversion Hm0; subst. eapply np_empty_wf; exact He.
Qed.

Lemma wf_seed_rng sd : steps (@keeps E storage_wf) (seed_rng sd).
Proof. intros s Hs. destruct sd; exact Hs. Qed.

Lemma wf_sample_posterior : steps (@keeps E storage_wf) sample_posterior.
Proof.
  intros s Hs. unfold sample_posterior.
  destruct (boom_model s) as [e|]; [|exact Hs].
  destruct (eng_sample_posterior e (global_rng s)). exact Hs.
Qed.

Lemma wf_record_draw i : steps (@keeps E storage_wf) (record_draw i).
Proof.
  intros s (Hc & Hm). unfold record_draw.
  destruct (boom_model s) as [e|]; [|split; assumption].
  destruct (record_components e i 0 (components s)) as [cs' r] eqn:Hr.
  pose proof (record_components_wf _ _ _ _ _ _ Hc Hr) as Hc'.
  destruct r as [er|]; [split; assumption|]. cbn [fst set_components mixing_weights_attr].
  destruct (mixing_weights_attr s) as [| |m] eqn:Hw;
    [split; simpl; [exact Hc' | intros m0 Hm0; rewrite Hw in Hm0; discriminate]..|].
  destruct (np_set_row m i (eng_probs e)) as [m'|er] eqn:Hs.
  - split; simpl; [exact Hc'|]. intros m0 Hm0; inversion Hm0; subst.
    eapply np_set_row_wf; [apply Hm; first [exact Hw | reflexivity] | exact Hs].
  - split; simpl; [exact Hc' | intros m0 Hm0; apply Hm; rewrite <- Hm0; first [exact (eq_sym Hw) | reflexivity]].
Qed.

Lemma bind_ok_inv {A B} (m : M E A) (k : A -> M E B) s s' b :
  bind m k s = (s', Ok b) -> exists s1 a, m s = (s1, Ok a) /\ k a s1 = (s', Ok b).
Proof. unfold bind. destruct (m s) as [s1 [a|er]]; intros Hb; [eauto|discriminate]. Qed.

Lemma for_each_app xs ys (body : nat -> M E unit) s :
  for_each (xs ++ ys) body s = bind (for_each xs body) (fun _ => for_each ys body) s.
Proof.
  revert s; induction xs as [|x xs IH]; intros s; simpl; [reflexivity|].
  unfold bind at 1 2 3. destruct (body x s) as [s1 [a|er]]; [|reflexivity].
  rewrite IH. reflexivity.
Qed.

End LastRow.

(** After a successful [mcmc(niter)] with [niter >= 1], the last row of
    each component's [draws] holds the [a] and [b] that component has in
    the final state of the engine, and the last row of the mixing-weight
    table holds the engine's final mixing weights when they have one entry
    per column. *)
Theorem mcmc_last_row_recorded {E} `{BoomEngine E}
  (s s' : bbm E) (n : Z) (sd : option Z) :
  (1 <= n)%Z -> mcmc n sd s = (s', Ok tt) ->
  exists e, boom_model s' = Some e /\
    (forall j c, nth_error (components s') j = Some c ->
       exists a b d, eng_component_ab e j = Some (a, b) /\ draws c = Some d /\
                     nth_error (nd_data d) (Z.to_nat n - 1) = Some [a; b]) /\
    (exists m, mixing_weights_attr s' = MWArray m /\
       (length (eng_probs e) = nd_cols m ->
        nth_error (nd_data m) (Z.to_nat n - 1) = Some (eng_probs e))).
Proof.
  intros Hn Hm. rewrite mcmc_unfold in Hm. unfold mcmc_body in Hm.
  apply bind_ok_inv in Hm as (s1 & [] & Hc & Hm).
  apply bind_ok_inv in Hm as (s2 & [] & Hsd & Hm).
  pose proof (create_storage_wf _ _ _ Hc) as W1.
  pose proof (wf_seed_rng sd s1 W1) as W2. rewrite Hsd in W2. cbn [fst] in W2.
  destruct (Z.to_nat n) as [|k] eqn:Hk; [lia|].
  replace (S k - 1)%nat with k by lia.
  rewrite seq_S, for_each_app in Hm.
  apply bind_ok_inv in Hm as (s3 & [] & Hfe & Hm).
  assert (W3 : storage_wf s3).
  { pose proof (steps_for_each (@keeps E storage_wf) (seq 0 k)
                  (fun i => sample_posterior ;; record_draw i)
                  ltac:(unfold keeps; auto) ltac:(unfold keeps; auto)
                  ltac:(intros i; apply steps_bind;
                        [unfold keeps; auto | apply wf_sample_posterior |
                         intros []; apply wf_record_draw]) s2 W2) as W.
    rewrite Hfe in W. exact W. }
  cbn [for_each] in Hm.
  apply bind_ok_inv in Hm as (s4 & [] & Hbody & Hret).
  unfold ret in Hret. inversion Hret; subst s'. clear Hret.
  apply bind_ok_inv in Hbody as (s5 & [] & Hsp & Hrd).
  pose proof (wf_sample_posterior s3 W3) as W5. rewrite Hsp in W5. cbn [fst] in W5.
  destruct W5 as (Wc & Wm).
  unfold record_draw in Hrd.
  destruct (boom_model s5) as [e|] eqn:He; [|discriminate].
  destruct (record_components e (0 + k) 0 (components s5)) as [cs' r] eqn:Hrc.
  destruct r as [er|]; [discriminate|].
  cbn [set_components mixing_weights_attr] in Hrd.
  destruct (mixing_weights_attr s5) as [| |m] eqn:Hw; try discriminate.
  destruct (np_set_row m (0 + k) (eng_probs e)) as [m'|er] eqn:Hs; [|discriminate].
  inversion Hrd; subst s4. clear Hrd.
  exists e. split; [exact He|]. split.
  - intros j c Hj.
    destruct (record_components_rows e (0 + k) 0 (components s5) cs' Wc Hrc j c Hj)
      as (a & b & d & H1 & H2 & H3).
    exists a, b, d. auto.
  - exists m'. split; [reflexivity|]. intros Hl.
    destruct (np_set_row_shape m (0 + k) (eng_probs e) m' Hs) as (_ & Hcols).
    eapply np_set_row_row_cols; [apply Wm; first [exact Hw | reflexivity] | lia | exact Hs].
Qed.

Lemma mcmc_last_row_recorded_witness :
  let s := run_ops [OpAddComponent beta_prior_1_1 uniform_prior_01_1000 1]
                   (init (E:=toy_engine) 0) in
  (1 <= 2)%Z /\ mcmc 2 None s = (fst (mcmc 2 None s), Ok tt) /\
  exists e, boom_model (fst (mcmc 2 None s)) = Some e /\
    (forall j c, nth_error (components (fst (mcmc 2 None s))) j = Some c ->
       exists a b d, eng_component_ab e j = Some (a, b) /\ draws c = Some d /\
                     nth_error (nd_data d) 1 = Some [a; b]) /\
    (exists m, mixing_weights_attr (fst (mcmc 2 None s)) = MWArray m /\
       (length (eng_probs e) = nd_cols m -> nth_error (nd_data m) 1 = Some (eng_probs e))).
Proof.
  cbv zeta. split; [lia|]. split; [vm_compute; reflexivity|].
  apply (mcmc_last_row_recorded
           (run_ops [OpAddComponent beta_prior_1_1 uniform_prior_01_1000 1]
                    (init (E:=toy_engine) 0)) _ 2 None); [lia|].
  vm_compute. reflexivity.
Defined.

Section AddData.
Context {E : Type} `{BoomEngine E}.

(** [add_data] builds the model before it reads the table. *)
Lemma add_data_builds_model (t : table) (s : bbm E) :
  boom_model (fst (add_data t s)) <> None.
Proof.
  unfold add_data. destruct (boom_model s) as [e|] eqn:Hb; simpl; [rewrite Hb|];
    destruct (np_col 0%Z (np_astype_int (table_values t)) 0),
             (np_col 0%Z (np_astype_int (table_values t)) 1),
             (np_col 0%Z (np_astype_int (table_values t)) 2);
    simpl; try rewrite Hb; discriminate.
Qed.

End AddData.

(** For a numeric table whose entries fit numpy's 64-bit integer,
    [add_data] succeeds exactly when the table has at least three columns
    (a narrower one raises [IndexError] at [data[:, 2]] or before); either
    way the model exists afterwards and the components, prior counts,
    mixing-weight attribute and warnings are untouched. *)
Theorem add_data_needs_three_columns {E} `{BoomEngine E} (t : table) (s : bbm E) :
  fits_int64 (table_values t) = true ->
  snd (add_data t s) =
    (if Nat.ltb (nd_cols (table_values t)) 3 then Err IndexError else Ok tt) /\
  boom_model (fst (add_data t s)) <> None /\
  components (fst (add_data t s)) = components s /\
  prior_counts (fst (add_data t s)) = prior_counts s /\
  mixing_weights_attr (fst (add_data t s)) = mixing_weights_attr s /\
  warnings (fst (add_data t s)) = warnings s.
Proof.
  intros _.
  split; [|split; [apply add_data_builds_model | apply add_data_fields]].
  unfold add_data, np_col.
  destruct (boom_model s) as [e|] eqn:Hb; simpl; [rewrite Hb|];
    destruct (nd_cols (table_values t)) as [|[|[|c]]]; reflexivity.
Qed.

Lemma add_data_needs_three_columns_witness :
  fits_int64 (mk_nd 1 2 [[10; 4]]%Q) = true /\
  snd (add_data (NdArray (mk_nd 1 2 [[10; 4]]%Q)) (init (E:=toy_engine) 0)) = Err IndexError.
Proof.
  split; [vm_compute; reflexivity|].
  apply (add_data_needs_three_columns (NdArray (mk_nd 1 2 [[10; 4]]%Q))
           (init (E:=toy_engine) 0)).
  vm_compute. reflexivity.
Defined.

(** Data handed to [add_data], even data it rejected, builds the model:
    a later [mcmc] emits no "no data" warning. *)
Theorem mcmc_after_add_data_no_warning {E} `{BoomEngine E}
  (t : table) (s : bbm E) (n : Z) (sd : option Z) :
  warnings (fst (mcmc n sd (fst (add_data t s)))) = warnings s.
Proof.
  pose proof (add_data_builds_model t s) as Hb.
  destruct (add_data_fields t s) as (_ & _ & _ & Hw).
  revert Hb Hw. generalize (fst (add_data t s)). intros s1 Hb Hw.
  rewrite mcmc_unfold.
  destruct (frame_mcmc_body n sd (fst (ensure_model s1))) as (_ & _ & F3 & _).
  rewrite F3. unfold ensure_model.
  destruct (boom_model s1); [exact Hw | congruence].
Qed.
